(** * keep2bear: the per-note conversion pipeline of [keep2bear.py]

    A shallow embedding of the functions that turn one exported Google Keep
    note into a textbundle package, and the properties of that pipeline.

    Conventions of the embedding.
    - A Python [str] is a [string]; a character stands for the code point of
      the same number, so the texts covered are those of code points below 256.
    - A note (the [dict] read from the export) is the record [Note]; a key the
      code tests with [in] is an [option] field, a key it reads unconditionally
      is a plain field.
    - A raised exception is a value of [exception]; functions that can raise
      return [result].
    - Functions that touch the file system, the random source or the clock
      run in the monad [M] over the state [World].  The file system is a
      finite map from [pathlib] paths to nodes; paths are compared by their
      parts (no symbolic links, and [..] is a part like any other).
    - A Python [float] is a binary64 number, a [spec_float] at precision 53;
      its arithmetic is the standard library's specification of IEEE 754.
      What the host decides (which seconds its clock accepts, how an instant
      reads in its time zone, which paths [stat] refuses) is a field of
      [World]. *)

From stdpp Require Import gmap strings list pretty.
From Stdlib Require Import Ascii ZArith NArith Lia SpecFloat FloatOps.

Open Scope list_scope.

(** ** Python strings *)

Module Py.

(** The line feed, ["\n"]. *)
Definition LF : ascii := "010"%char.
Definition nl : string := String LF "".

(** [sep.join(l)] *)
Fixpoint join (sep : string) (l : list string) : string :=
  match l with
  | [] => ""
  | [x] => x
  | x :: rest => x +:+ sep +:+ join sep rest
  end.

(** [s.split(sep)] for a one-character separator: the pieces between its
    occurrences; never an empty list. *)
Fixpoint split (sep : ascii) (s : string) : list string :=
  match s with
  | "" => [""]
  | String c s' =>
      if Ascii.eqb c sep then "" :: split sep s'
      else match split sep s' with
           | h :: t => String c h :: t
           | [] => [String c ""]
           end
  end.

(** [s.split("\n")] *)
Definition split_nl (s : string) : list string := split LF s.

(** [l[0]] on a list of strings known to be non-empty. *)
Definition first (l : list string) : string := hd "" l.

(** [s[:n]] *)
Fixpoint take (n : nat) (s : string) : string :=
  match n, s with
  | S n', String c s' => String c (take n' s')
  | _, _ => ""
  end.

(** [s[n:]] *)
Fixpoint drop (n : nat) (s : string) : string :=
  match n, s with
  | S n', String _ s' => drop n' s'
  | _, _ => s
  end.

(** [s[a:b]] for [a <= b]. *)
Definition slice (a b : nat) (s : string) : string := take (b - a) (drop a s).

(** [bool(s)]: a string is true when it is not empty. *)
Definition truthy (s : string) : bool :=
  match s with
  | "" => false
  | _ => true
  end.

(** How many times [c] stands at the start of [s]. *)
Fixpoint leading (c : ascii) (s : string) : nat :=
  match s with
  | "" => 0
  | String d s' => if Ascii.eqb d c then S (leading c s') else 0
  end.

(** [c in s] for a character [c]. *)
Fixpoint char_in (c : ascii) (s : string) : bool :=
  match s with
  | "" => false
  | String d s' => Ascii.eqb c d || char_in c s'
  end.

(** ["".join(c for c in s if keep c)] *)
Fixpoint filter_chars (keep : ascii -> bool) (s : string) : string :=
  match s with
  | "" => ""
  | String c s' =>
      if keep c then String c (filter_chars keep s') else filter_chars keep s'
  end.

(** [c.isalnum()] on the code points below 256: the ASCII digits and letters,
    and the Latin-1 letters, superscript digits and vulgar fractions. *)
Definition isalnum (c : ascii) : bool :=
  let n := N_of_ascii c in
  ((48 <=? n) && (n <=? 57) || (65 <=? n) && (n <=? 90)
   || (97 <=? n) && (n <=? 122)
   || (n =? 170) || (n =? 178) || (n =? 179) || (n =? 181)
   || (n =? 185) || (n =? 186) || (188 <=? n) && (n <=? 190)
   || (192 <=? n) && (n <=? 214) || (216 <=? n) && (n <=? 246)
   || (248 <=? n) && (n <=? 255))%N.

(** The lines of a text: the pieces between line feeds, an empty text having
    no line at all. *)
Definition lines (s : string) : list string :=
  match s with
  | "" => []
  | _ => split_nl s
  end.

(** [s] has no line feed in it. *)
Definition no_newline (s : string) : Prop := char_in LF s = false.

End Py.


(** ** The note record and the exceptions *)

(** One entry of ["listContent"]. *)
Record ListItem := {
  text : string;
  isChecked : bool;
}.

(** One entry of ["annotations"].  Only ["source"] is read for every
    annotation; the other keys are read for a ["WEBLINK"] alone. *)
Module Annotation.
Record t := {
  source : string;
  title : string;
  url : string;
  description : string;
}.
End Annotation.

(** One entry of ["attachments"]. *)
Record Attachment := {
  filePath : string;
}.

Record Note := {
  title : string;
  textContent : option string;
  listContent : option (list ListItem);
  annotations : option (list Annotation.t);
  attachments : option (list Attachment);
  isPinned : bool;
  isArchived : bool;
  isTrashed : bool;
  color : string;
  userEditedTimestampUsec : Z;
}.

(** A [pathlib] path: its root ([""] for a relative path, ["/"] or ["//"]) and
    its parts. *)
Definition path : Type := string * list string.

(** The pieces a message is formatted from: text, and ['%s' % note], the
    rendering of the note's [dict], which the record does not determine. *)
Inductive fragment :=
  | Lit (s : string)
  | Repr (note : Note).

Inductive exception :=
  | ConversionError (msg : list fragment)
  | UnboundLocalError (name : string)
  | FileExistsError (p : path)
  | FileNotFoundError (p : path)
  | NotADirectoryError (p : path)
  | IsADirectoryError (p : path)
  | SameFileError (src dst : path)
  | ValueError (msg : string)
  | OverflowError (msg : string)
  | OSError (errno : Z) (filename : option path).

Inductive result (A : Type) :=
  | Ok (a : A)
  | Raise (e : exception).
Arguments Ok {A} a.
Arguments Raise {A} e.

#[export] Instance result_ret : MRet result := fun _ a => Ok a.
#[export] Instance result_bind : MBind result := fun _ _ f r =>
  match r with
  | Ok a => f a
  | Raise e => Raise e
  end.

(** Reading a local variable that an [if]/[elif] may have left unbound. *)
Definition read_local {A} (name : string) (v : option A) : result A :=
  match v with
  | Some a => Ok a
  | None => Raise (UnboundLocalError name)
  end.

(** ** Content: checklist, annotations, text *)

Definition convert_list (_list : list ListItem) : string :=
  let mdlist :=
    fold_left
      (fun mdlist item =>
         let check_status := if isChecked item then "+" else "-" in
         mdlist ++ [Py.join " " [check_status; text item]])
      _list [] in
  Py.join Py.nl mdlist.

Definition ann_convert_weblink (ann : Annotation.t) : string :=
  "[" +:+ Annotation.title ann +:+ "](" +:+ Annotation.url ann +:+ ")" +:+ Py.nl
  +:+ "> " +:+ Annotation.description ann.

(** Google Keep annotation source types and their conversion functions. *)
Definition converters : gmap string (Annotation.t -> string) :=
  {[ "WEBLINK" := ann_convert_weblink ]}.

(** The body of [for ann in note["annotations"]], threading the list
    [annotations] it appends to. *)
Fixpoint convert_each_annotation (anns : list Annotation.t) (annotations : list string)
  : result (list string) :=
  match anns with
  | [] => Ok annotations
  | ann :: rest =>
      match converters !! Annotation.source ann with
      | None =>
          Raise (ConversionError
                   [Lit ("Unknown annotation type: '" +:+ Annotation.source ann +:+ "'")])
      | Some conversion_fn =>
          convert_each_annotation rest (annotations ++ [conversion_fn ann])
      end
  end.

Definition convert_note_annotations (note : Note) : result string :=
  let annotations0 := [] in
  annotations1 ←
    match annotations note with
    | Some anns => convert_each_annotation anns (annotations0 ++ [""])
    | None => Ok annotations0
    end;
  mret (Py.join Py.nl annotations1).

Definition convert_note_text (note : Note) (ignore_colors : bool)
  : result (string * list string) :=
  let text := [] in
  let content :=
    match textContent note with
    | Some t => Some t
    | None =>
        match listContent note with
        | Some l => Some (convert_list l)
        | None => None
        end
    end in
  '(title, text) ←
    (if Py.truthy (title note)
     then mret (title note, text ++ ["# " +:+ title note])
     else c ← read_local "content" content;
          mret (Py.first (Py.split_nl c), text));
  c ← read_local "content" content;
  let text := text ++ [c] in
  anns ← convert_note_annotations note;
  let text := text ++ [anns] in
  let color := color note in
  let text :=
    if negb (String.eqb color "DEFAULT") && negb ignore_colors
    then text ++ ["#" +:+ color]
    else text in
  mret (title, text).

(** ** Paths ([pathlib.PurePosixPath]) *)

(** The path a string denotes: runs of slashes and [.] parts are dropped;
    exactly two leading slashes are a root of their own. *)
Definition parse_path (s : string) : path :=
  let root :=
    match Py.leading "/" s with
    | 0 => ""
    | 2 => "//"
    | _ => "/"
    end in
  (root, filter (fun part => part ≠ "" ∧ part ≠ ".") (Py.split "/" s)).

(** [p / s]: an anchored [s] replaces [p]. *)
Definition joinpath (p : path) (s : string) : path :=
  let q := parse_path s in
  if Py.truthy q.1 then q else (p.1, p.2 ++ q.2).

(** [p.name] *)
Definition name (p : path) : string := List.last p.2 "".

(** [p.parent] *)
Definition parent (p : path) : path := (p.1, List.removelast p.2).

(** [str(p)] *)
Definition str_path (p : path) : string :=
  match p with
  | ("", []) => "."
  | (root, parts) => root +:+ Py.join "/" parts
  end.

(** [q] is [p] or lies below it. *)
Definition under (p q : path) : Prop := q.1 = p.1 ∧ p.2 `prefix_of` q.2.

(** ** Package metadata *)

Definition TB_EXT : string := "textbundle".
Definition TB_CONTENT_FILE : string := "text.txt".
Definition TB_METADATA_FILE : string := "info.json".
Definition TB_ASSET_DIR : string := "assets".

(** The value under ["net.shinyfrog.bear"]; [None] is Python's [None]. *)
Record BearMeta := {
  pinned : Z;
  trashedDate : option string;
  archived : Z;
  modificationDate : string;
  creationDate : string;
  pinnedDate : option string;
  trashed : Z;
  uniqueIdentifier : string;
  archivedDate : option string;
  lastEditingDevice : string;
}.

Record TBundle := {
  net_shinyfrog_bear : BearMeta;
  transient : bool;
  type : string;
  creatorIdentifier : string;
  version : Z;
}.

(** ** Timestamps: [int / float] and [datetime.fromtimestamp] *)

Module Float.

Local Open Scope Z_scope.

(** The literal [10e5], which is also the [1e6] microseconds of a second:
    [1000000 = 8589934592000000 * 2^-33]. *)
Definition million : spec_float := S754_finite false 8589934592000000 (-33).

(** The conversion [int / float] makes of its left operand: the nearest
    double, ties to even; an [int] that rounds beyond the largest double
    raises. *)
Definition of_int (n : Z) : result spec_float :=
  match binary_normalize prec emax n 0 false with
  | S754_infinity _ => Raise (OverflowError "int too large to convert to float")
  | f => Ok f
  end.

(** [n / 10e5] *)
Definition truediv_10e5 (n : Z) : result spec_float :=
  f ← of_int n;
  mret (SFdiv prec emax f million).

(** C's [modf] on a finite double: the fractional part, which is exact, and
    the integral part, toward zero.  (The sign of a zero fractional part is
    not kept; nothing below reads it.) *)
Definition modf (d : spec_float) : spec_float * Z :=
  match d with
  | S754_finite s m e =>
      if 0 <=? e then (S754_zero s, cond_Zopp s (Zpos m * 2 ^ e))
      else (binary_normalize prec emax (cond_Zopp s (Zpos m mod 2 ^ (- e))) e false,
            cond_Zopp s (Zpos m / 2 ^ (- e)))
  | _ => (d, 0)
  end.

(** The nearest integer of a finite double, ties to even. *)
Definition round_half_even (x : spec_float) : Z :=
  match x with
  | S754_finite s m e =>
      cond_Zopp s
        (if 0 <=? e then Zpos m * 2 ^ e
         else
           let q := Zpos m / 2 ^ (- e) in
           match 2 * (Zpos m mod 2 ^ (- e)) ?= 2 ^ (- e) with
           | Lt => q
           | Gt => q + 1
           | Eq => if Z.even q then q else q + 1
           end)
  | _ => 0
  end.

(** The whole seconds and the microseconds [datetime.fromtimestamp] reads a
    float timestamp as: the fractional part times [1e6], rounded half to
    even, a carry going to the seconds. *)
Definition seconds_and_microseconds (t : spec_float) : Z * Z :=
  let '(floatpart, intpart) := modf t in
  let floatpart := SFmul prec emax floatpart million in
  let floatpart := round_half_even floatpart in
  if 1000000 <=? floatpart then (intpart + 1, floatpart - 1000000)
  else if floatpart <? 0 then (intpart - 1, floatpart + 1000000)
  else (intpart, floatpart).

End Float.

(** An instant as [datetime.fromtimestamp] holds it: the second since the
    epoch and the microsecond within it. *)
Record datetime := {
  second : Z;
  microsecond : Z;
}.

(** ** The world: file system, random source, clock *)

(** What a file holds: text that was written or copied, or [json.dumps(meta)]. *)
Inductive contents :=
  | Written (s : string)
  | JsonDumps (meta : TBundle).

Inductive node :=
  | Dir
  | File (c : contents).

Record World := {
  (** the directories and files, by path *)
  files : gmap path node;
  (** the successive 16-byte draws of [os.urandom], as numbers *)
  urandom : nat -> N;
  (** how many draws were made *)
  drawn : nat;
  (** the [OSError] that [is_file] passes on for a path: [stat] failing
      otherwise than by the path's absence (a name too long, a directory
      that may not be searched) *)
  stat_raises : path -> option exception;
  (** the exception [datetime.fromtimestamp] raises for a second that the
      host's [time_t], its [localtime] or the years 1 to 9999 do not cover *)
  fromtimestamp_raises : Z -> option exception;
  (** [ts.astimezone().isoformat()]: the instant in the host's time zone, in
      ISO format *)
  local_iso : datetime -> result string;
}.

Definition M (A : Type) : Type := World -> result A * World.

#[export] Instance M_ret : MRet M := fun _ a w => (Ok a, w).
#[export] Instance M_bind : MBind M := fun _ _ f m w =>
  match m w with
  | (Ok a, w') => f a w'
  | (Raise e, w') => (Raise e, w')
  end.

Definition raise {A} (e : exception) : M A := fun w => (Raise e, w).

(** A pure computation that may raise, run in [M]. *)
Definition lift {A} (r : result A) : M A := fun w => (r, w).

Definition set_files (f : gmap path node) (w : World) : World :=
  {| files := f; urandom := urandom w; drawn := drawn w;
     stat_raises := stat_raises w; fromtimestamp_raises := fromtimestamp_raises w;
     local_iso := local_iso w |}.

(** The node at [p]; a path without parts (the root, the current directory)
    is a directory. *)
Definition lookup_node (f : gmap path node) (p : path) : option node :=
  match p.2 with
  | [] => Some Dir
  | _ => f !! p
  end.

Definition node_at (p : path) : M (option node) := fun w =>
  (Ok (lookup_node (files w) p), w).

Definition put_node (p : path) (n : node) : M unit := fun w =>
  (Ok tt, set_files (<[p := n]> (files w)) w).

(** [p.exists()] *)
Definition path_exists (p : path) : M bool :=
  n ← node_at p;
  mret (match n with Some _ => true | None => false end).

(** What [p.is_file()] gives in [w]: [stat]'s error when it is not the
    path's absence, and else whether a regular file is there. *)
Definition is_file_at (w : World) (p : path) : result bool :=
  match stat_raises w p with
  | Some e => Raise e
  | None => Ok (match lookup_node (files w) p with
                | Some (File _) => true
                | _ => false
                end)
  end.

(** [p.is_file()] *)
Definition is_file (p : path) : M bool := fun w => (is_file_at w p, w).

(** Creating the entry [p] needs its parent to be a directory. *)
Definition check_parent (p : path) : M unit :=
  par ← node_at (parent p);
  match par with
  | Some Dir => mret tt
  | Some (File _) => raise (NotADirectoryError p)
  | None => raise (FileNotFoundError p)
  end.

(** [p.mkdir(exist_ok=False)] *)
Definition mkdir (p : path) : M unit :=
  n ← node_at p;
  match n with
  | Some _ => raise (FileExistsError p)
  | None => check_parent p;; put_node p Dir
  end.

(** [with open(str(p), "w") as f: f.write(c)], and the writing half of a copy. *)
Definition write_file (p : path) (c : contents) : M unit :=
  n ← node_at p;
  match n with
  | Some Dir => raise (IsADirectoryError p)
  | Some (File _) => put_node p (File c)
  | None => check_parent p;; put_node p (File c)
  end.

(** [shutil.copy(str(src), str(dst))] *)
Definition shutil_copy (src dst : path) : M unit :=
  d ← node_at dst;
  let dst := match d with
             | Some Dir => joinpath dst (name src)
             | _ => dst
             end in
  s ← node_at src;
  match s with
  | None => raise (FileNotFoundError src)
  | Some Dir => raise (IsADirectoryError src)
  | Some (File c) =>
      if decide (src = dst) then raise (SameFileError src dst)
      else write_file dst c
  end.

(** ** Unique identifiers ([uuid.uuid4]) *)

Definition hex_digit (d : N) : ascii :=
  match d with
  | 0 => "0" | 1 => "1" | 2 => "2" | 3 => "3" | 4 => "4" | 5 => "5"
  | 6 => "6" | 7 => "7" | 8 => "8" | 9 => "9" | 10 => "a" | 11 => "b"
  | 12 => "c" | 13 => "d" | 14 => "e" | _ => "f"
  end%N%char.

(** The last [width] hexadecimal digits of [n], zero-padded: ['%032x' % n]
    for [width = 32] and [n] below [2^128]. *)
Fixpoint hex (width : nat) (n : N) : string :=
  match width with
  | O => ""
  | S w => hex w (n / 16) +:+ String (hex_digit (n mod 16)) ""
  end.

(** The number of a version-4 identifier made from 16 random bytes:
    the variant bits set to [10], the version bits to [0100]. *)
Definition uuid_of_random (r : N) : N :=
  let int := (r mod 2 ^ 128)%N in
  let int := N.ldiff int (N.shiftl 0xc000 48) in
  let int := N.lor int (N.shiftl 0x8000 48) in
  let int := N.ldiff int (N.shiftl 0xf000 64) in
  N.lor int (N.shiftl 4 76).

(** [str(u)]: the 32 digits in groups of 8, 4, 4, 4 and 12. *)
Definition str_uuid (u : N) : string :=
  let h := hex 32 u in
  Py.slice 0 8 h +:+ "-" +:+ Py.slice 8 12 h +:+ "-" +:+ Py.slice 12 16 h
  +:+ "-" +:+ Py.slice 16 20 h +:+ "-" +:+ Py.drop 20 h.

(** The world after one more draw from the random source. *)
Definition one_more_draw (w : World) : World :=
  {| files := files w; urandom := urandom w; drawn := S (drawn w);
     stat_raises := stat_raises w; fromtimestamp_raises := fromtimestamp_raises w;
     local_iso := local_iso w |}.

(** [uuid4()] *)
Definition uuid4 : M N := fun w =>
  (Ok (uuid_of_random (urandom w (drawn w))), one_more_draw w).

(** ** Metadata *)

Definition new_tbundle_meta (created_ts mod_ts : string) (pinned archived trashed : bool)
  : M TBundle :=
  u ← uuid4;
  mret {|
    net_shinyfrog_bear := {|
      pinned := Z.b2z pinned;
      trashedDate := if trashed then Some mod_ts else None;
      archived := Z.b2z archived;
      modificationDate := mod_ts;
      creationDate := created_ts;
      pinnedDate := if pinned then Some mod_ts else None;
      trashed := Z.b2z trashed;
      uniqueIdentifier := str_uuid u;
      archivedDate := if archived then Some mod_ts else None;
      lastEditingDevice := "keep2bear";
    |};
    transient := true;
    type := "public.plain-text";
    creatorIdentifier := "net.shinyfrog.bear";
    version := 2;
  |}.

(** [datetime.fromtimestamp(t)] *)
Definition fromtimestamp (t : spec_float) : M datetime := fun w =>
  let '(sec, us) := Float.seconds_and_microseconds t in
  match fromtimestamp_raises w sec with
  | Some e => (Raise e, w)
  | None => (Ok {| second := sec; microsecond := us |}, w)
  end.

Definition datetime_to_str (ts : datetime) : M string := fun w =>
  (local_iso w {| second := second ts; microsecond := 0 |}, w).

Definition convert_metadata (note : Note) (created_ts : string) : M TBundle :=
  t ← lift (Float.truediv_10e5 (userEditedTimestampUsec note));
  mod_ts ← fromtimestamp t;
  mod_ts ← datetime_to_str mod_ts;
  new_tbundle_meta created_ts mod_ts (isPinned note) (isArchived note) (isTrashed note).

(** ** Attachments *)

(** The body of [for att in note["attachments"]], threading the lists
    [assets] and [embeds] it appends to. *)
Fixpoint convert_each_attachment (note : Note) (srcpath : path) (atts : list Attachment)
    (assets : list path) (embeds : list string) : M (list path * list string) :=
  match atts with
  | [] => mret (assets, embeds)
  | att :: rest =>
      let fname := filePath att in
      let src_file := joinpath srcpath fname in
      found ← is_file src_file;
      if negb found then
        raise (ConversionError
                 [Lit ("could not find file '" +:+ str_path src_file
                       +:+ "' referenced by note '");
                  Repr note; Lit "'"])
      else
        convert_each_attachment note srcpath rest
          (assets ++ [src_file])
          (embeds ++ ["[" +:+ TB_ASSET_DIR +:+ "/" +:+ fname +:+ "]"])
  end.

Definition convert_note_attachments (note : Note) (srcpath : path)
  : M (list path * list string) :=
  match attachments note with
  | Some atts => convert_each_attachment note srcpath atts [] []
  | None => mret ([], [])
  end.

(** ** Writing the package *)

(** [for x in l: body x] *)
Fixpoint for_each {A} (l : list A) (body : A -> M unit) : M unit :=
  match l with
  | [] => mret tt
  | x :: rest => body x;; for_each rest body
  end.

(** The directory name a title gives, before any disambiguation. *)
Definition sanitized (title : string) : string :=
  let tb_title := Py.filter_chars (fun c => Py.isalnum c || Py.char_in c "._- ") title in
  let tb_title := Py.take 50 tb_title in
  tb_title +:+ "." +:+ TB_EXT.

Definition write_textbundle (title : string) (text : list string) (meta : TBundle)
    (assets : list path) (outdir : path) : M unit :=
  let tb_title := sanitized title in
  let tb_dir := joinpath outdir tb_title in
  taken ← path_exists tb_dir;
  tb_dir ←
    (if taken : bool then
       u ← uuid4;
       let tb_title := tb_title +:+ Py.take 8 (str_uuid u) in
       mret (joinpath outdir tb_title)
     else mret tb_dir);
  mkdir tb_dir;;
  match assets with
  | [] => mret tt
  | _ =>
      let asset_dir := joinpath tb_dir TB_ASSET_DIR in
      mkdir asset_dir;;
      for_each assets (fun src_file =>
        let dst_file := joinpath asset_dir (name src_file) in
        shutil_copy src_file dst_file)
  end;;
  write_file (joinpath tb_dir TB_METADATA_FILE) (JsonDumps meta);;
  write_file (joinpath tb_dir TB_CONTENT_FILE) (Written (Py.join Py.nl text)).

Definition process_note (note : Note) (created_ts : string) (srcpath outdir : path)
    (ignore_colors : bool) : M unit :=
  meta ← convert_metadata note created_ts;
  '(title, text) ← lift (convert_note_text note ignore_colors);
  '(assets, embeds) ← convert_note_attachments note srcpath;
  let text := text ++ embeds in
  write_textbundle title text meta assets outdir.

(** ** Vocabulary of the statements *)

(** The annotation is of the one kind [converters] knows. *)
Definition is_weblink (ann : Annotation.t) : Prop := Annotation.source ann = "WEBLINK".

(** [content] is what the body of [note] renders to: its text, or else its
    checklist converted. *)
Definition body_of (note : Note) (content : string) : Prop :=
  textContent note = Some content
  \/ (textContent note = None /\
      exists l, listContent note = Some l /\ content = convert_list l).

(** The tag block a colour adds to the text. *)
Definition color_tag (note : Note) (ignore_colors : bool) : list string :=
  if negb (String.eqb (color note) "DEFAULT") && negb ignore_colors
  then ["#" +:+ color note] else [].

(** The note with its ["listContent"] key removed. *)
Definition without_checklist (note : Note) : Note :=
  {| title := title note; textContent := textContent note; listContent := None;
     annotations := annotations note; attachments := attachments note;
     isPinned := isPinned note; isArchived := isArchived note;
     isTrashed := isTrashed note; color := color note;
     userEditedTimestampUsec := userEditedTimestampUsec note |}.

(** The message of the exception carries the rendering of [note]. *)
Definition names_note (e : exception) (note : Note) : Prop :=
  match e with
  | ConversionError msg => In (Repr note) msg
  | _ => False
  end.

(** [p] is a regular file of [w]. *)
Definition file_in (w : World) (p : path) : Prop :=
  exists c, lookup_node (files w) p = Some (File c).

(** The modification timestamp [convert_metadata] computes in [w] for the
    edited time [usec], or the exception it raises on the way: the first
    three statements of the function, run in [w]. *)
Definition modification_timestamp (w : World) (usec : Z) : result string :=
  ((t ← lift (Float.truediv_10e5 usec);
    mod_ts ← fromtimestamp t;
    datetime_to_str mod_ts) w).1.

(** The record [new_tbundle_meta] fills in. *)
Definition tbundle_meta (created_ts mod_ts : string) (pinned archived trashed : bool)
    (uuid : N) : TBundle :=
  {| net_shinyfrog_bear :=
       {| pinned := Z.b2z pinned;
          trashedDate := if trashed then Some mod_ts else None;
          archived := Z.b2z archived;
          modificationDate := mod_ts;
          creationDate := created_ts;
          pinnedDate := if pinned then Some mod_ts else None;
          trashed := Z.b2z trashed;
          uniqueIdentifier := str_uuid uuid;
          archivedDate := if archived then Some mod_ts else None;
          lastEditingDevice := "keep2bear" |};
     transient := true; type := "public.plain-text";
     creatorIdentifier := "net.shinyfrog.bear"; version := 2 |}.

(** The exception [convert_note_attachments] raises for the file [src_file]. *)
Definition missing_file_error (note : Note) (src_file : path) : exception :=
  ConversionError
    [Lit ("could not find file '" +:+ str_path src_file +:+ "' referenced by note '");
     Repr note; Lit "'"].

(** What the loop over the attachments raises at [src_file], the first path
    for which [is_file] does not hold: the error of [stat], or else the
    missing-file error. *)
Definition attachment_error (note : Note) (w : World) (src_file : path) : exception :=
  match is_file_at w src_file with
  | Raise e => e
  | Ok _ => missing_file_error note src_file
  end.

(** The double of mantissa [M], from [2^52] to [2^53], and exponent [e]: a
    mantissa that rounding carried to [2^53] is [2^52] at the next exponent. *)
Definition rounded_double (M e : Z) : spec_float :=
  if (M <? 2 ^ 53)%Z then S754_finite false (Z.to_pos M) e
  else S754_finite false 4503599627370496 (e + 1).

(** The mantissa of [10e5]. *)
Definition million_mantissa : Z := 8589934592000000.

Definition no_slash (s : string) : Prop := Py.char_in "/" s = false.

(** The parts of a [pathlib] path hold no slash. *)
Definition wf_path (p : path) : Prop := Forall no_slash p.2.

(** [q] lies strictly below [p]. *)
Definition below (p q : path) : Prop :=
  q.1 = p.1 /\ exists k, k <> [] /\ q.2 = p.2 ++ k.

(** [m] changes the file system at paths of [P] only. *)
Definition touches_only (P : path -> Prop) {A} (m : M A) : Prop :=
  forall w q, ~ P q -> files (m w).2 !! q = files w !! q.

(** The line a checklist item is rendered as. *)
Definition render_item (item : ListItem) : string :=
  (if isChecked item then "+ " else "- ") +:+ text item.

(** A file name proper: not empty, not [.], and without a slash. *)
Definition plain_name (s : string) : Prop := no_slash s /\ s <> "" /\ s <> ".".

(** The entry named [s] of the directory [p]. *)
Definition child (p : path) (s : string) : path := (p.1, p.2 ++ [s]).

(** Every character of [s] passes [ok]. *)
Fixpoint all_chars (ok : ascii -> bool) (s : string) : bool :=
  match s with
  | "" => true
  | String c s' => ok c && all_chars ok s'
  end.

(** The characters [write_textbundle] keeps of a title. *)
Definition title_char (c : ascii) : bool := Py.isalnum c || Py.char_in c "._- ".

(** ** Example notes and hosts *)

Definition weblink_ann : Annotation.t :=
  {| Annotation.source := "WEBLINK"; Annotation.title := "Rocq";
     Annotation.url := "https://rocq-prover.org";
     Annotation.description := "The Rocq prover" |}.

Definition sheet_ann : Annotation.t :=
  {| Annotation.source := "SHEETS"; Annotation.title := "Budget";
     Annotation.url := "https://docs.example/budget";
     Annotation.description := "" |}.

Definition groceries_note : Note :=
  {| title := "Groceries"; textContent := None;
     listContent := Some [ {| text := "milk"; isChecked := false |};
                           {| text := "eggs"; isChecked := true |} ];
     annotations := None; attachments := None;
     isPinned := true; isArchived := false; isTrashed := false;
     color := "DEFAULT"; userEditedTimestampUsec := 1600000000000000 |}.

Definition hello_note : Note :=
  {| title := ""; textContent := Some ("Hello world" +:+ Py.nl +:+ "second line");
     listContent := None;
     annotations := Some [weblink_ann; weblink_ann]; attachments := None;
     isPinned := false; isArchived := false; isTrashed := false;
     color := "RED"; userEditedTimestampUsec := 1600000000000000 |}.

(** A note whose second annotation is of an unknown kind and whose one
    attachment is not in the export. *)
Definition trip_note : Note :=
  {| title := "Trip"; textContent := Some "Packing list"; listContent := None;
     annotations := Some [weblink_ann; sheet_ann];
     attachments := Some [ {| filePath := "ticket.pdf" |} ];
     isPinned := false; isArchived := false; isTrashed := false;
     color := "DEFAULT"; userEditedTimestampUsec := 1600000000000000 |}.

(** Another note with the same annotations. *)
Definition budget_note : Note :=
  {| title := "Budget"; textContent := Some "Rent and food"; listContent := None;
     annotations := Some [weblink_ann; sheet_ann]; attachments := None;
     isPinned := false; isArchived := true; isTrashed := false;
     color := "BLUE"; userEditedTimestampUsec := 1600000000000000 |}.

(** A note with both body keys. *)
Definition both_note : Note :=
  {| title := "Both"; textContent := Some "the text";
     listContent := Some [ {| text := "the item"; isChecked := true |} ];
     annotations := None; attachments := None;
     isPinned := false; isArchived := false; isTrashed := false;
     color := "DEFAULT"; userEditedTimestampUsec := 1600000000000000 |}.

(** A note with two attachments, the second of them missing from the export. *)
Definition scans_note : Note :=
  {| title := "Scans"; textContent := Some "two scans"; listContent := None;
     annotations := None;
     attachments := Some [ {| filePath := "page1.png" |}; {| filePath := "page2.png" |} ];
     isPinned := false; isArchived := false; isTrashed := false;
     color := "DEFAULT"; userEditedTimestampUsec := 1600000000000000 |}.

(** A note whose attachment lies in a subdirectory of the export. *)
Definition holiday_note : Note :=
  {| title := "Holiday"; textContent := Some "At the beach"; listContent := None;
     annotations := None;
     attachments := Some [ {| filePath := "media/photo.jpg" |} ];
     isPinned := false; isArchived := false; isTrashed := false;
     color := "DEFAULT"; userEditedTimestampUsec := 1600000000000000 |}.

Definition keep_dir : path := ("", ["Takeout"; "Keep"]).
Definition out_dir : path := ("", ["out"]).

Definition example_urandom (n : nat) : N :=
  (0x3b1f0c9e5a7d4e218f6420c1d5a9b7e3
   + N.of_nat n * 0x9e3779b97f4a7c15f39cc0605cedc835)%N.

(** The clock of a 64-bit Linux host in UTC. *)
Module Utc.

Local Open Scope Z_scope.

(** The year, month and day of the day [z] days after 1970-01-01, in the
    proleptic Gregorian calendar. *)
Definition civil_from_days (z : Z) : Z * Z * Z :=
  let z := z + 719468 in
  let era := z / 146097 in
  let doe := z mod 146097 in
  let yoe := (doe - doe / 1460 + doe / 36524 - doe / 146096) / 365 in
  let doy := doe - (365 * yoe + yoe / 4 - yoe / 100) in
  let mp := (5 * doy + 2) / 153 in
  let d := doy - (153 * mp + 2) / 5 + 1 in
  let m := if mp <? 10 then mp + 3 else mp - 9 in
  let y := yoe + era * 400 in
  (if m <=? 2 then y + 1 else y, m, d).

Definition year_of (sec : Z) : Z := (civil_from_days (sec / 86400)).1.1.

(** The last [width] decimal digits of [n], zero-padded. *)
Fixpoint dec (width : nat) (n : Z) : string :=
  match width with
  | O => ""
  | S w => dec w (n / 10) +:+ String (ascii_of_N (48 + Z.to_N (n mod 10))) ""
  end.

Definition isoformat (ts : datetime) : string :=
  let '(y, m, d) := civil_from_days (second ts / 86400) in
  let s := second ts mod 86400 in
  dec 4 y +:+ "-" +:+ dec 2 m +:+ "-" +:+ dec 2 d +:+ "T"
  +:+ dec 2 (s / 3600) +:+ ":" +:+ dec 2 (s / 60 mod 60) +:+ ":" +:+ dec 2 (s mod 60)
  +:+ (if microsecond ts =? 0 then "" else "." +:+ dec 6 (microsecond ts))
  +:+ "+00:00".

(** The seconds refused: those beyond [time_t], those whose year [localtime]
    cannot hold, and those outside the years 1 to 9999, the first day of
    year 1 among them since the day before is looked at. *)
Definition refuses (sec : Z) : option exception :=
  let y := year_of sec in
  if (sec <? - 2 ^ 63) || (2 ^ 63 <? sec) then
    Some (OverflowError "timestamp out of range for platform time_t")
  else if (y <? -2147481748) || (2147485547 <? y) then
    Some (OSError 75 None)
  else if (y <? 1) || (9999 <? y) then
    Some (ValueError ("year " +:+ pretty y +:+ " is out of range"))
  else if year_of (sec - 86400) <? 1 then
    Some (ValueError "year 0 is out of range")
  else None.

End Utc.

(** A host in UTC holding the files [f], on which [stat] fails for absent
    paths only. *)
Definition host (f : gmap path node) : World :=
  {| files := f; urandom := example_urandom; drawn := 0;
     stat_raises := fun _ => None;
     fromtimestamp_raises := Utc.refuses;
     local_iso := fun ts => Ok (Utc.isoformat ts) |}.

Definition export_files : gmap path node :=
  <[("", ["Takeout"; "Keep"; "media"; "photo.jpg"]) := File (Written "JFIF")]>
  (<[("", ["Takeout"; "Keep"; "media"]) := Dir]>
  (<[("", ["Takeout"; "Keep"; "page1.png"]) := File (Written "PNG")]>
  (<[("", ["Takeout"; "Keep"]) := Dir]>
  (<[("", ["Takeout"]) := Dir]>
  (<[("", ["out"]) := Dir]> ∅))))).

(** The export and an empty output directory. *)
Definition fresh_host : World := host export_files.

(** The output directory already holds a package named after ["Trip"]. *)
Definition collision_host : World :=
  host (<[("", ["out"; "Trip.textbundle"; "text.txt"]) := File (Written "old")]>
        (<[("", ["out"; "Trip.textbundle"]) := Dir]> export_files)).

(** The output directory also holds the name the next draw would give. *)
Definition crowded_host : World :=
  host (<[("", ["out"; "Trip.textbundle3b1f0c9e"]) := Dir]> (files collision_host)).

Definition example_meta : TBundle :=
  {| net_shinyfrog_bear :=
       {| pinned := 0; trashedDate := None; archived := 0;
          modificationDate := "2020-09-13T12:26:40+00:00";
          creationDate := "2020-09-14T08:00:00+00:00";
          pinnedDate := None; trashed := 0;
          uniqueIdentifier := "00000000-0000-4000-8000-000000000000";
          archivedDate := None; lastEditingDevice := "keep2bear" |};
     transient := true; type := "public.plain-text";
     creatorIdentifier := "net.shinyfrog.bear"; version := 2 |}.

(** A note with no body at all, and an annotation of an unknown kind. *)
Definition bodiless_note : Note :=
  {| title := "Empty"; textContent := None; listContent := None;
     annotations := Some [sheet_ann]; attachments := None;
     isPinned := false; isArchived := false; isTrashed := false;
     color := "DEFAULT"; userEditedTimestampUsec := 1600000000000000 |}.

(** A note whose one attachment is in the export. *)
Definition receipt_note : Note :=
  {| title := "Receipt"; textContent := Some "paid"; listContent := None;
     annotations := None;
     attachments := Some [ {| filePath := "page1.png" |} ];
     isPinned := false; isArchived := false; isTrashed := false;
     color := "GREEN"; userEditedTimestampUsec := 1600000000000000 |}.

(** An untitled checklist. *)
Definition todo_note : Note :=
  {| title := ""; textContent := None;
     listContent := Some [ {| text := "call home"; isChecked := true |};
                           {| text := "water plants"; isChecked := false |} ];
     annotations := None; attachments := None;
     isPinned := false; isArchived := false; isTrashed := false;
     color := "DEFAULT"; userEditedTimestampUsec := 1600000000000000 |}.

(** A note edited, by its record, later than any double can tell. *)
Definition far_note : Note :=
  {| title := "Far"; textContent := Some "much later"; listContent := None;
     annotations := None; attachments := None;
     isPinned := false; isArchived := false; isTrashed := false;
     color := "DEFAULT"; userEditedTimestampUsec := 10 ^ 400 |}.

(** * Properties *)

#[local] Arguments String.append !s1 s2 : simpl nomatch.
#[local] Arguments Ascii.eqb : simpl never.

(** ** Facts about strings *)

Lemma append_nil_r (s : string) : s +:+ "" = s.
Proof. induction s as [|c s IH]; simpl; [reflexivity | by rewrite IH]. Qed.

Lemma append_assoc (a b c : string) : (a +:+ b) +:+ c = a +:+ (b +:+ c).
Proof. induction a as [|x a IH]; simpl; [reflexivity | by rewrite IH]. Qed.

Lemma length_append (a b : string) :
  String.length (a +:+ b) = String.length a + String.length b.
Proof. induction a as [|x a IH]; simpl; [reflexivity | by rewrite IH]. Qed.

Lemma char_in_append (c : ascii) (a b : string) :
  Py.char_in c (a +:+ b) = Py.char_in c a || Py.char_in c b.
Proof.
  induction a as [|x a IH]; simpl; [reflexivity |].
  rewrite IH. by rewrite orb_assoc.
Qed.

(** A text without the separator is its own single piece. *)
Lemma split_none (sep : ascii) (s : string) :
  Py.char_in sep s = false -> Py.split sep s = [s].
Proof.
  induction s as [|c s IH]; simpl; [reflexivity |].
  intros H. apply orb_false_elim in H as [Hc Hs].
  rewrite Ascii.eqb_sym, Hc. by rewrite (IH Hs).
Qed.

(** Splitting cuts at the first separator. *)
Lemma split_cons (sep : ascii) (s rest : string) :
  Py.char_in sep s = false ->
  Py.split sep (s +:+ String sep rest) = s :: Py.split sep rest.
Proof.
  induction s as [|c s IH]; simpl.
  - intros _. by rewrite Ascii.eqb_refl.
  - intros H. apply orb_false_elim in H as [Hc Hs].
    rewrite Ascii.eqb_sym, Hc. by rewrite (IH Hs).
Qed.

Lemma split_not_nil (sep : ascii) (s : string) : Py.split sep s <> [].
Proof.
  induction s as [|c s IH]; simpl; [discriminate |].
  destruct (Ascii.eqb c sep); [discriminate |].
  destruct (Py.split sep s); [contradiction | discriminate].
Qed.

(** Joining lines and splitting them again gives the lines back. *)
Lemma split_join (l : list string) :
  l <> [] -> Forall Py.no_newline l -> Py.split_nl (Py.join Py.nl l) = l.
Proof.
  unfold Py.split_nl.
  induction l as [|x l IH]; [contradiction |].
  intros _ Hl. inversion Hl as [|? ? Hx Hl']; subst.
  destruct l as [|y l].
  - simpl. by apply split_none.
  - change (Py.join Py.nl (x :: y :: l))
      with (x +:+ String Py.LF (Py.join Py.nl (y :: l))).
    rewrite split_cons by exact Hx.
    f_equal. by apply IH.
Qed.

Lemma join_cons_empty (sep : string) (l : list string) :
  l <> [] -> Py.join sep ("" :: l) = sep +:+ Py.join sep l.
Proof. destruct l; [contradiction | reflexivity]. Qed.

(** The loops of the source append to a list; what they build is a [map]. *)
Lemma fold_left_snoc {A B} (f : A -> B) (l : list A) (acc : list B) :
  fold_left (fun acc x => acc ++ [f x]) l acc = acc ++ map f l.
Proof.
  revert acc. induction l as [|x l IH]; intros acc; simpl.
  - by rewrite app_nil_r.
  - rewrite IH. by rewrite <- app_assoc.
Qed.

Lemma convert_list_join (l : list ListItem) :
  convert_list l = Py.join Py.nl (map render_item l).
Proof.
  unfold convert_list. rewrite fold_left_snoc. simpl. f_equal.
  apply map_ext. intros [t []]; reflexivity.
Qed.

(** ** The checklist *)

(** C5. A checklist whose item texts hold no line feed renders to exactly one
    line per item, in the order of the items; each line is the item's text
    after ["+ "] when the item is checked and after ["- "] when it is not. *)
Theorem convert_list_lines (l : list ListItem) :
  Forall (fun item => Py.no_newline (text item)) l ->
  Py.lines (convert_list l)
  = map (fun item => (if isChecked item then "+ " else "- ") +:+ text item) l
  /\ length (Py.lines (convert_list l)) = length l.
Proof.
  intros Hl.
  assert (E : Py.lines (convert_list l) = map render_item l).
  { rewrite convert_list_join.
    destruct l as [|item l]; [reflexivity |].
    assert (Hne : Py.join Py.nl (map render_item (item :: l)) <> "").
    { simpl. destruct item as [t []], (map render_item l); discriminate. }
    unfold Py.lines.
    destruct (Py.join Py.nl (map render_item (item :: l))) eqn:E; [contradiction |].
    rewrite <- E. apply split_join; [discriminate |].
    apply Forall_map. eapply Forall_impl; [exact Hl |].
    intros [t c] H. unfold Py.no_newline, render_item in *.
    rewrite char_in_append, H. by destruct c. }
  split; [exact E |]. rewrite E. apply length_map.
Qed.

Lemma convert_list_lines_witness :
  Py.lines (convert_list [ {| text := "milk"; isChecked := false |};
                           {| text := "eggs"; isChecked := true |} ])
  = ["- milk"; "+ eggs"]
  /\ length (Py.lines (convert_list [ {| text := "milk"; isChecked := false |};
                                      {| text := "eggs"; isChecked := true |} ])) = 2.
Proof.
  apply (convert_list_lines [ {| text := "milk"; isChecked := false |};
                              {| text := "eggs"; isChecked := true |} ]).
  repeat constructor.
Defined.

(** ** The annotations *)

Lemma converters_weblink : converters !! "WEBLINK" = Some ann_convert_weblink.
Proof. apply lookup_singleton_eq. Qed.

Lemma converters_other (source : string) :
  source <> "WEBLINK" -> converters !! source = None.
Proof. intros H. apply lookup_singleton_ne. congruence. Qed.

Lemma convert_each_annotation_weblinks (anns : list Annotation.t) (acc : list string) :
  Forall is_weblink anns ->
  convert_each_annotation anns acc = Ok (acc ++ map ann_convert_weblink anns).
Proof.
  intros H. revert acc.
  induction H as [|ann anns Hann _ IH]; intros acc; simpl.
  - by rewrite app_nil_r.
  - rewrite Hann, converters_weblink, IH. by rewrite <- app_assoc.
Qed.

Lemma convert_each_annotation_unknown (pre post : list Annotation.t)
    (ann : Annotation.t) (acc : list string) :
  Forall is_weblink pre ->
  ~ is_weblink ann ->
  convert_each_annotation (pre ++ ann :: post) acc
  = Raise (ConversionError
             [Lit ("Unknown annotation type: '" +:+ Annotation.source ann +:+ "'")]).
Proof.
  intros Hpre Hann. revert acc.
  induction Hpre as [|a pre Ha _ IH]; intros acc; simpl.
  - by rewrite converters_other.
  - rewrite Ha, converters_weblink. apply IH.
Qed.

(** C3. For a note whose annotations are all of kind WEBLINK the converter
    returns the empty string when there is no annotation (the key absent or
    its list empty), and otherwise one empty line followed by one block per
    annotation in the order of the input, a block being [[title](url)] and on
    the next line [> description], all of it joined by line feeds. *)
Theorem convert_note_annotations_weblinks (note : Note) :
  Forall is_weblink (default [] (annotations note)) ->
  convert_note_annotations note
  = Ok match annotations note with
       | None | Some [] => ""
       | Some anns =>
           Py.nl +:+
           Py.join Py.nl
             (map (fun ann =>
                     "[" +:+ Annotation.title ann +:+ "](" +:+ Annotation.url ann +:+ ")"
                     +:+ Py.nl +:+ "> " +:+ Annotation.description ann)
                  anns)
       end.
Proof.
  intros H. unfold convert_note_annotations.
  destruct (annotations note) as [anns|]; [| reflexivity].
  rewrite convert_each_annotation_weblinks by exact H.
  destruct anns as [|ann anns]; [reflexivity |].
  simpl app. unfold mbind, result_bind, mret, result_ret.
  rewrite join_cons_empty by discriminate. reflexivity.
Qed.

Lemma convert_note_annotations_weblinks_witness :
  convert_note_annotations hello_note
  = Ok (Py.nl +:+ "[Rocq](https://rocq-prover.org)" +:+ Py.nl +:+ "> The Rocq prover"
        +:+ Py.nl +:+ "[Rocq](https://rocq-prover.org)" +:+ Py.nl +:+ "> The Rocq prover").
Proof.
  apply (convert_note_annotations_weblinks hello_note).
  repeat constructor.
Defined.

Lemma truthy_false (s : string) : Py.truthy s = false <-> s = "".
Proof. destruct s; simpl; split; congruence. Qed.

(** The first piece of a split is the text up to the first line feed. *)
Lemma first_split_nl (s : string) :
  let t := Py.first (Py.split_nl s) in
  Py.no_newline t /\ (s = t \/ exists rest, s = t +:+ Py.nl +:+ rest).
Proof.
  unfold Py.split_nl, Py.first, Py.no_newline.
  induction s as [|c s [IH1 IH2]]; simpl.
  - split; [reflexivity | by left].
  - destruct (Ascii.eqb c Py.LF) eqn:Ec.
    + apply Ascii.eqb_eq in Ec as ->. simpl.
      split; [reflexivity |]. right. by exists s.
    + pose proof (split_not_nil Py.LF s) as Hne.
      destruct (Py.split Py.LF s) as [|h t]; [contradiction |].
      simpl in *. rewrite Ascii.eqb_sym, Ec. simpl.
      split; [exact IH1 |].
      destruct IH2 as [-> | [rest ->]]; [by left |].
      right. by exists rest.
Qed.

Lemma convert_note_text_eq (note : Note) (ignore_colors : bool) (content anns : string) :
  body_of note content ->
  convert_note_annotations note = Ok anns ->
  convert_note_text note ignore_colors
  = Ok (if Py.truthy (title note)
        then (title note,
              ["# " +:+ title note; content; anns] ++ color_tag note ignore_colors)
        else (Py.first (Py.split_nl content),
              [content; anns] ++ color_tag note ignore_colors)).
Proof.
  intros Hbody Hanns. unfold convert_note_text, color_tag.
  assert (E : match textContent note with
              | Some t => Some t
              | None => match listContent note with
                        | Some l => Some (convert_list l)
                        | None => None
                        end
              end = Some content).
  { destruct Hbody as [-> | [-> (l & -> & ->)]]; reflexivity. }
  rewrite E, Hanns.
  destruct (Py.truthy (title note)); simpl;
    destruct (negb (String.eqb (color note) "DEFAULT") && negb ignore_colors);
    reflexivity.
Qed.

(** C1, as the code has it.  For a note holding an annotation whose source is
    not ["WEBLINK"], the converter raises the error
    [Unknown annotation type: '<source>'] for the first such annotation: the
    message names the discriminator and nothing else.  Converting the text of
    such a note, when the note has a body, raises that same error, so the
    annotation is never dropped in silence. *)
Theorem convert_note_annotations_unknown (note : Note)
    (pre post : list Annotation.t) (ann : Annotation.t) :
  annotations note = Some (pre ++ ann :: post) ->
  Forall is_weblink pre ->
  Annotation.source ann <> "WEBLINK" ->
  let e := ConversionError
             [Lit ("Unknown annotation type: '" +:+ Annotation.source ann +:+ "'")] in
  convert_note_annotations note = Raise e
  /\ forall ignore_colors content,
       body_of note content -> convert_note_text note ignore_colors = Raise e.
Proof.
  intros E Hpre Hann e.
  assert (Hraise : convert_note_annotations note = Raise e).
  { unfold convert_note_annotations. rewrite E.
    by rewrite convert_each_annotation_unknown. }
  split; [exact Hraise |].
  intros ignore_colors content Hbody. unfold convert_note_text.
  assert (Hc : match textContent note with
               | Some t => Some t
               | None => match listContent note with
                         | Some l => Some (convert_list l)
                         | None => None
                         end
               end = Some content).
  { destruct Hbody as [-> | [-> (l & -> & ->)]]; reflexivity. }
  rewrite Hc, Hraise. by destruct (Py.truthy (title note)).
Qed.

Lemma convert_note_annotations_unknown_witness :
  convert_note_annotations trip_note
  = Raise (ConversionError [Lit "Unknown annotation type: 'SHEETS'"])
  /\ convert_note_text trip_note false
     = Raise (ConversionError [Lit "Unknown annotation type: 'SHEETS'"]).
Proof.
  destruct (convert_note_annotations_unknown trip_note [weblink_ann] [] sheet_ann)
    as [H1 H2]; [reflexivity | repeat constructor | discriminate |].
  split; [exact H1 |].
  apply (H2 false "Packing list"). left. reflexivity.
Defined.

(** C1, as the claim has it, fails: the error raised for [trip_note] is the
    text [Unknown annotation type: 'SHEETS'], which does not carry the note,
    and the different note [budget_note] gets the very same error. *)
Lemma unknown_annotation_error_omits_note :
  convert_note_annotations trip_note
  = Raise (ConversionError [Lit "Unknown annotation type: 'SHEETS'"])
  /\ ~ names_note (ConversionError [Lit "Unknown annotation type: 'SHEETS'"]) trip_note
  /\ convert_note_annotations budget_note = convert_note_annotations trip_note
  /\ budget_note <> trip_note.
Proof.
  split; [reflexivity |]. split; [| split; [reflexivity | discriminate]].
  intros [H | []]. discriminate H.
Qed.

(** ** The text *)

(** C4. With a body and convertible annotations: a note with a title gets that
    title as derived title and [# title] as first block, before the content;
    a note without a title gets the first line of its content as derived
    title, and its blocks start with the content itself, no heading added. *)
Theorem convert_note_text_title (note : Note) (ignore_colors : bool)
    (content anns : string) :
  body_of note content ->
  convert_note_annotations note = Ok anns ->
  exists derived text,
    convert_note_text note ignore_colors = Ok (derived, text) /\
    (title note <> "" ->
       derived = title note /\
       text = ["# " +:+ title note; content; anns] ++ color_tag note ignore_colors) /\
    (title note = "" ->
       Py.no_newline derived /\
       (content = derived \/ exists rest, content = derived +:+ Py.nl +:+ rest) /\
       text = [content; anns] ++ color_tag note ignore_colors).
Proof.
  intros Hbody Hanns.
  rewrite (convert_note_text_eq _ _ _ _ Hbody Hanns).
  destruct (Py.truthy (title note)) eqn:Et.
  - eexists _, _. split; [reflexivity |]. split; [done |].
    intros E. rewrite E in Et. discriminate.
  - eexists _, _. split; [reflexivity |].
    apply truthy_false in Et. split; [done |].
    intros _. destruct (first_split_nl content) as [H1 H2]. done.
Qed.

Lemma convert_note_text_title_witness :
  (exists text, convert_note_text hello_note false = Ok ("Hello world", text)
                /\ length text = 3)
  /\ (exists text, convert_note_text groceries_note false = Ok ("Groceries", text)
                   /\ text !! 0 = Some "# Groceries").
Proof.
  split.
  - destruct (convert_note_text_title hello_note false
                ("Hello world" +:+ Py.nl +:+ "second line")
                (Py.nl +:+ "[Rocq](https://rocq-prover.org)" +:+ Py.nl
                 +:+ "> The Rocq prover" +:+ Py.nl
                 +:+ "[Rocq](https://rocq-prover.org)" +:+ Py.nl
                 +:+ "> The Rocq prover"))
      as (derived & text & H & _ & Hempty); [left; reflexivity | reflexivity |].
    destruct (Hempty eq_refl) as (_ & _ & ->).
    exists (["Hello world" +:+ Py.nl +:+ "second line";
             Py.nl +:+ "[Rocq](https://rocq-prover.org)" +:+ Py.nl
             +:+ "> The Rocq prover" +:+ Py.nl
             +:+ "[Rocq](https://rocq-prover.org)" +:+ Py.nl
             +:+ "> The Rocq prover"] ++ color_tag hello_note false).
    split; reflexivity.
  - destruct (convert_note_text_title groceries_note false
                ("- milk" +:+ Py.nl +:+ "+ eggs") "")
      as (derived & text & H & Htitle & _);
      [right; split; [reflexivity | eexists; split; reflexivity] | reflexivity |].
    destruct Htitle as [-> ->]; [discriminate |].
    eexists. split; [exact H | reflexivity].
Defined.

(** C10. A note with both a text and a checklist is converted as if the
    checklist were not there: the result is that of the note without its
    checklist, an error can only be the annotations' error, and otherwise the
    content block is the text verbatim. *)
Theorem text_wins_over_checklist (note : Note) (ignore_colors : bool)
    (t : string) (l : list ListItem) :
  textContent note = Some t ->
  listContent note = Some l ->
  convert_note_text note ignore_colors
  = convert_note_text (without_checklist note) ignore_colors
  /\ (forall e, convert_note_text note ignore_colors = Raise e ->
                convert_note_annotations note = Raise e)
  /\ (forall anns, convert_note_annotations note = Ok anns ->
      exists derived heading,
        convert_note_text note ignore_colors
        = Ok (derived, heading ++ [t; anns] ++ color_tag note ignore_colors)
        /\ (heading = [] \/ heading = ["# " +:+ title note])).
Proof.
  intros Ht Hl. split; [| split].
  - unfold convert_note_text, convert_note_annotations. simpl. by rewrite Ht.
  - intros e. unfold convert_note_text. rewrite Ht. simpl.
    destruct (Py.truthy (title note)); simpl;
      destruct (convert_note_annotations note); simpl;
      unfold mret, result_ret; congruence.
  - intros anns Hanns.
    rewrite (convert_note_text_eq note ignore_colors t anns); [| by left | done].
    destruct (Py.truthy (title note)).
    + eexists _, ["# " +:+ title note]. split; [reflexivity | by right].
    + eexists _, []. split; [reflexivity | by left].
Qed.

Lemma text_wins_over_checklist_witness :
  convert_note_text both_note false
  = convert_note_text (without_checklist both_note) false
  /\ convert_note_text both_note false = Ok ("Both", ["# Both"; "the text"; ""]).
Proof.
  destruct (text_wins_over_checklist both_note false "the text"
              [ {| text := "the item"; isChecked := true |} ])
    as (H1 & _ & _); [reflexivity | reflexivity |].
  split; [exact H1 | reflexivity].
Defined.

(** ** Running computations of [M] *)

Lemma run_bind {A B} (m : M A) (f : A -> M B) (w : World) :
  (m ≫= f) w = match m w with
               | (Ok a, w') => f a w'
               | (Raise e, w') => (Raise e, w')
               end.
Proof. reflexivity. Qed.

Lemma run_ret {A} (a : A) (w : World) : (mret a : M A) w = (Ok a, w).
Proof. reflexivity. Qed.

Lemma run_is_file (p : path) (w : World) : is_file p w = (is_file_at w p, w).
Proof. reflexivity. Qed.

Lemma is_file_at_true (w : World) (p : path) :
  is_file_at w p = Ok true <-> stat_raises w p = None /\ file_in w p.
Proof.
  unfold is_file_at, file_in. destruct (stat_raises w p) as [e|].
  - split; [discriminate | by intros [? _]].
  - destruct (lookup_node (files w) p) as [[|c]|]; split;
      try discriminate; try (by intros [_ [? ?]]).
    intros _. split; [reflexivity | by exists c].
Qed.

Lemma is_file_at_draw (w : World) (p : path) :
  is_file_at (one_more_draw w) p = is_file_at w p.
Proof. reflexivity. Qed.

Lemma run_path_exists (p : path) (w : World) :
  path_exists p w = (Ok (match lookup_node (files w) p with
                         | Some _ => true
                         | None => false
                         end), w).
Proof. reflexivity. Qed.

Lemma convert_each_attachment_ok (note : Note) (srcpath : path)
    (atts : list Attachment) (assets : list path) (embeds : list string) (w : World) :
  Forall (fun att => is_file_at w (joinpath srcpath (filePath att)) = Ok true) atts ->
  convert_each_attachment note srcpath atts assets embeds w
  = (Ok (assets ++ map (fun att => joinpath srcpath (filePath att)) atts,
         embeds ++ map (fun att => "[assets/" +:+ filePath att +:+ "]") atts), w).
Proof.
  intros H. revert assets embeds.
  induction H as [|att atts Hatt _ IH]; intros assets embeds; simpl.
  - by rewrite !app_nil_r.
  - rewrite run_bind, run_is_file, Hatt. simpl.
    rewrite IH. by rewrite <- !app_assoc.
Qed.

Lemma convert_each_attachment_missing (note : Note) (srcpath : path)
    (pre post : list Attachment) (att : Attachment)
    (assets : list path) (embeds : list string) (w : World) :
  Forall (fun a => is_file_at w (joinpath srcpath (filePath a)) = Ok true) pre ->
  is_file_at w (joinpath srcpath (filePath att)) <> Ok true ->
  convert_each_attachment note srcpath (pre ++ att :: post) assets embeds w
  = (Raise (attachment_error note w (joinpath srcpath (filePath att))), w).
Proof.
  intros Hpre Hatt. revert assets embeds.
  induction Hpre as [|a pre Ha _ IH]; intros assets embeds; simpl.
  - rewrite run_bind, run_is_file. unfold attachment_error.
    destruct (is_file_at w (joinpath srcpath (filePath att))) as [[|]|e];
      [done | reflexivity | reflexivity].
  - rewrite run_bind, run_is_file, Ha. simpl. apply IH.
Qed.

Lemma run_new_tbundle_meta (created_ts mod_ts : string) (pinned archived trashed : bool)
    (w : World) :
  new_tbundle_meta created_ts mod_ts pinned archived trashed w
  = (Ok (tbundle_meta created_ts mod_ts pinned archived trashed
           (uuid_of_random (urandom w (drawn w)))), one_more_draw w).
Proof. reflexivity. Qed.

(** [convert_metadata] raises what the timestamp raises, the world untouched,
    and else fills in the record, with one identifier drawn. *)
Lemma run_convert_metadata (note : Note) (created_ts : string) (w : World) :
  convert_metadata note created_ts w
  = match modification_timestamp w (userEditedTimestampUsec note) with
    | Ok mod_ts =>
        (Ok (tbundle_meta created_ts mod_ts (isPinned note) (isArchived note)
               (isTrashed note) (uuid_of_random (urandom w (drawn w)))),
         one_more_draw w)
    | Raise e => (Raise e, w)
    end.
Proof.
  unfold convert_metadata, modification_timestamp, fromtimestamp, datetime_to_str, lift.
  unfold mbind, M_bind.
  destruct (Float.truediv_10e5 (userEditedTimestampUsec note)) as [t|e]; [| reflexivity].
  destruct (Float.seconds_and_microseconds t) as [sec us].
  destruct (fromtimestamp_raises w sec) as [e|]; [reflexivity |]. simpl.
  destruct (local_iso w {| second := sec; microsecond := 0 |}) as [mod_ts|e];
    reflexivity.
Qed.

(** ** Missing attachments *)

(** C2, as the code has it.  Let [att] be the first attachment of the note
    for which [is_file] does not hold of [srcpath / filePath].  Then
    [process_note] fails and leaves the file system as it was: no package
    directory is created.  The failure is the first of these: the error of
    the timestamp, when the float conversion or the clock refuses the edited
    time (nothing is drawn then); the error of the text conversion; the error
    of [stat], when [is_file] raises; and else the missing-file error, which
    names the path [srcpath / filePath] and the note. *)
Theorem process_note_missing_attachment (note : Note) (created_ts : string)
    (srcpath outdir : path) (ignore_colors : bool) (w : World)
    (pre post : list Attachment) (att : Attachment) :
  let src_file := joinpath srcpath (filePath att) in
  attachments note = Some (pre ++ att :: post) ->
  Forall (fun a => is_file_at w (joinpath srcpath (filePath a)) = Ok true) pre ->
  is_file_at w src_file <> Ok true ->
  process_note note created_ts srcpath outdir ignore_colors w
  = match modification_timestamp w (userEditedTimestampUsec note) with
    | Raise e => (Raise e, w)
    | Ok _ =>
        (Raise (match convert_note_text note ignore_colors with
                | Raise e => e
                | Ok _ => attachment_error note w src_file
                end),
         one_more_draw w)
    end
  /\ files (process_note note created_ts srcpath outdir ignore_colors w).2 = files w
  /\ (is_file_at w src_file = Ok false ->
      attachment_error note w src_file
      = ConversionError
          [Lit ("could not find file '" +:+ str_path src_file
                +:+ "' referenced by note '");
           Repr note; Lit "'"]).
Proof.
  intros src_file Hatts Hpre Hatt.
  assert (Hrun : process_note note created_ts srcpath outdir ignore_colors w
            = match modification_timestamp w (userEditedTimestampUsec note) with
              | Raise e => (Raise e, w)
              | Ok _ =>
                  (Raise (match convert_note_text note ignore_colors with
                          | Raise e => e
                          | Ok _ => attachment_error note w src_file
                          end),
                   one_more_draw w)
              end).
  { unfold process_note. rewrite run_bind, run_convert_metadata.
    destruct (modification_timestamp w (userEditedTimestampUsec note)) as [mod_ts|e];
      [| reflexivity].
    rewrite run_bind. unfold lift.
    destruct (convert_note_text note ignore_colors) as [[derived text]|e];
      [| reflexivity].
    rewrite run_bind. unfold convert_note_attachments. rewrite Hatts.
    by rewrite (convert_each_attachment_missing note srcpath pre post att [] []
                  (one_more_draw w) Hpre Hatt). }
  split; [exact Hrun |]. split.
  - rewrite Hrun.
    by destruct (modification_timestamp w (userEditedTimestampUsec note)).
  - intros Hfalse. unfold attachment_error. by rewrite Hfalse.
Qed.

Lemma process_note_missing_attachment_witness :
  (process_note scans_note "2020-09-14T08:00:00+00:00" keep_dir out_dir false
     fresh_host).1
  = Raise (ConversionError
             [Lit "could not find file 'Takeout/Keep/page2.png' referenced by note '";
              Repr scans_note; Lit "'"])
  /\ files (process_note scans_note "2020-09-14T08:00:00+00:00" keep_dir out_dir false
              fresh_host).2
     = files fresh_host.
Proof.
  destruct (process_note_missing_attachment scans_note "2020-09-14T08:00:00+00:00"
              keep_dir out_dir false fresh_host
              [ {| filePath := "page1.png" |} ] [] {| filePath := "page2.png" |})
    as (H & Hfiles & _).
  - reflexivity.
  - repeat constructor.
  - discriminate.
  - split; [| exact Hfiles]. rewrite H. reflexivity.
Defined.

(** C2, as the claim has it, fails: the one attachment of [trip_note] is
    missing from the export, yet converting the note fails with the error of
    its unknown annotation, which is raised first. *)
Lemma missing_attachment_masked_by_annotation :
  attachments trip_note = Some [ {| filePath := "ticket.pdf" |} ]
  /\ lookup_node (files fresh_host) (joinpath keep_dir "ticket.pdf") = None
  /\ (process_note trip_note "2020-09-14T08:00:00+00:00" keep_dir out_dir false
        fresh_host).1
     = Raise (ConversionError [Lit "Unknown annotation type: 'SHEETS'"])
  /\ ConversionError [Lit "Unknown annotation type: 'SHEETS'"]
     <> missing_file_error trip_note (joinpath keep_dir "ticket.pdf").
Proof.
  split; [reflexivity |]. split; [reflexivity |]. split; [reflexivity |].
  discriminate.
Qed.

(** ** The float quotient of the edited time *)

Section FloatFacts.

Local Open Scope Z_scope.

(** [10e5] is the double of the integer 1000000. *)
Lemma of_int_million : Float.of_int 1000000 = Ok Float.million.
Proof. reflexivity. Qed.

Lemma fexp53_eq (x : Z) : -1021 <= x -> fexp prec emax x = x - 53.
Proof. intros H. unfold fexp, emin, prec, emax. lia. Qed.

Lemma digits2_pos_bounds (p : positive) :
  2 ^ (Zpos (digits2_pos p) - 1) <= Zpos p < 2 ^ Zpos (digits2_pos p).
Proof.
  induction p as [p IH | p IH |]; simpl digits2_pos.
  - rewrite Pos2Z.inj_succ. change (Zpos p~1) with (2 * Zpos p + 1).
    replace (Z.succ (Zpos (digits2_pos p)) - 1) with (Z.succ (Zpos (digits2_pos p) - 1)) by lia.
    rewrite !Z.pow_succ_r by lia.
    revert IH. generalize (2 ^ (Zpos (digits2_pos p) - 1)) (2 ^ Zpos (digits2_pos p)).
    intros a b. lia.
  - rewrite Pos2Z.inj_succ. change (Zpos p~0) with (2 * Zpos p).
    replace (Z.succ (Zpos (digits2_pos p)) - 1) with (Z.succ (Zpos (digits2_pos p) - 1)) by lia.
    rewrite !Z.pow_succ_r by lia.
    revert IH. generalize (2 ^ (Zpos (digits2_pos p) - 1)) (2 ^ Zpos (digits2_pos p)).
    intros a b. lia.
  - simpl. lia.
Qed.

Lemma Zdigits2_bounds (m : Z) : 0 < m -> 2 ^ (Zdigits2 m - 1) <= m < 2 ^ Zdigits2 m.
Proof. destruct m as [|p|p]; try lia. intros _. apply digits2_pos_bounds. Qed.

Lemma Zdigits2_pos (m : Z) : 0 < m -> 0 < Zdigits2 m.
Proof. destruct m; simpl; lia. Qed.

Lemma Zdigits2_unique (m d : Z) : 2 ^ (d - 1) <= m < 2 ^ d -> 0 < d -> Zdigits2 m = d.
Proof.
  intros [H1 H2] Hd.
  assert (Hm : 0 < m) by (pose proof (Z.pow_pos_nonneg 2 (d - 1)); lia).
  pose proof (Zdigits2_bounds m Hm) as [B1 B2].
  pose proof (Zdigits2_pos m Hm) as Hpos.
  destruct (Z.lt_trichotomy (Zdigits2 m) d) as [Hlt | [Heq | Hgt]]; [| exact Heq |].
  - assert (2 ^ Zdigits2 m <= 2 ^ (d - 1)) by (apply Z.pow_le_mono_r; lia). lia.
  - assert (2 ^ d <= 2 ^ (Zdigits2 m - 1)) by (apply Z.pow_le_mono_r; lia). lia.
Qed.

Lemma shr_1_m (mrs : shr_record) : 0 <= shr_m mrs -> shr_m (shr_1 mrs) = shr_m mrs / 2.
Proof.
  destruct mrs as [m r s]. simpl. intros Hm.
  destruct m as [|[p|p|]|p]; try lia; simpl shr_m.
  - reflexivity.
  - change (Zpos p~1) with (2 * Zpos p + 1). apply Z.div_unique with 1; lia.
  - change (Zpos p~0) with (2 * Zpos p). apply Z.div_unique with 0; lia.
  - reflexivity.
Qed.

Lemma iter_pos_shr_m (n : positive) (mrs : shr_record) :
  0 <= shr_m mrs ->
  0 <= shr_m (iter_pos shr_1 n mrs)
  /\ shr_m (iter_pos shr_1 n mrs) = shr_m mrs / 2 ^ Zpos n.
Proof.
  assert (Hstep : forall mrs, 0 <= shr_m mrs -> 0 <= shr_m (shr_1 mrs)).
  { intros x Hx. rewrite shr_1_m by exact Hx. apply Z.div_pos; lia. }
  revert mrs. induction n as [n IH | n IH |]; intros mrs Hm; simpl iter_pos.
  - destruct (IH (shr_1 mrs) (Hstep _ Hm)) as [H1 E1].
    destruct (IH _ H1) as [H2 E2]. split; [exact H2 |].
    rewrite E2, E1, shr_1_m by exact Hm.
    rewrite !Z.div_div by (try apply Z.pow_pos_nonneg; lia).
    f_equal. change (Zpos n~1) with (2 * Zpos n + 1).
    replace (2 * Zpos n + 1) with (1 + Zpos n + Zpos n) by lia.
    rewrite !Z.pow_add_r by lia. lia.
  - destruct (IH mrs Hm) as [H1 E1].
    destruct (IH _ H1) as [H2 E2]. split; [exact H2 |].
    rewrite E2, E1.
    rewrite !Z.div_div by (try apply Z.pow_pos_nonneg; lia).
    f_equal. change (Zpos n~0) with (2 * Zpos n).
    replace (2 * Zpos n) with (Zpos n + Zpos n) by lia.
    rewrite !Z.pow_add_r by lia. lia.
  - split; [apply Hstep; exact Hm |]. rewrite shr_1_m by exact Hm. reflexivity.
Qed.

Lemma shr_m_of_loc (m : Z) (l : location) : shr_m (shr_record_of_loc m l) = m.
Proof. by destruct l as [|[]]. Qed.

Lemma loc_of_shr_of_loc (m : Z) (l : location) :
  loc_of_shr_record (shr_record_of_loc m l) = l.
Proof. by destruct l as [|[]]. Qed.

Lemma round_nearest_even_bounds (m : Z) (l : location) :
  m <= round_nearest_even m l <= m + 1.
Proof. destruct l as [|[]]; simpl; try lia. destruct (Z.even m); lia. Qed.

Lemma shr_fexp_eq (m e : Z) (l : location) (n : Z) :
  Zdigits2 m = 53 + n -> -1074 <= e + n ->
  shr_fexp prec emax m e l = shr (shr_record_of_loc m l) e n.
Proof.
  intros Hd He. unfold shr_fexp. rewrite Hd, fexp53_eq by lia. f_equal. lia.
Qed.

(** The second half of [binary_round_aux]: a mantissa that rounding carried
    to [2^53] is shifted once more. *)
Lemma round_finish (M e : Z) :
  2 ^ 52 <= M <= 2 ^ 53 -> -1074 <= e -> e + 1 <= 971 ->
  (let '(mrs, e') := shr_fexp prec emax M e loc_Exact in
   match shr_m mrs with
   | Z0 => S754_zero false
   | Zpos m => if e' <=? emax - prec then S754_finite false m e' else S754_infinity false
   | Zneg _ => S754_nan
   end) = rounded_double M e.
Proof.
  intros HM He1 He2. unfold rounded_double.
  destruct (Z.ltb_spec M (2 ^ 53)) as [Hlt | Hge].
  - rewrite (shr_fexp_eq M e loc_Exact 0) by (try apply Zdigits2_unique; simpl; lia).
    simpl. destruct M as [|p|p]; try lia.
    destruct (Z.leb_spec e (emax - prec)) as [_ | Hbad]; [reflexivity |].
    unfold emax, prec in Hbad. lia.
  - assert (M = 2 ^ 53) as -> by lia.
    rewrite (shr_fexp_eq _ e loc_Exact 1) by (try reflexivity; lia).
    simpl. destruct (Z.leb_spec (e + 1) (emax - prec)) as [_ | Hbad]; [reflexivity |].
    unfold emax, prec in Hbad. lia.
Qed.

Lemma binary_round_aux_unfold (m e : Z) (l : location) :
  binary_round_aux prec emax false m e l
  = (let '(mrs', e') := shr_fexp prec emax m e l in
     let '(mrs, e'') :=
       shr_fexp prec emax
         (round_nearest_even (shr_m mrs') (loc_of_shr_record mrs')) e' loc_Exact in
     match shr_m mrs with
     | Z0 => S754_zero false
     | Zpos m => if e'' <=? emax - prec then S754_finite false m e'' else S754_infinity false
     | Zneg _ => S754_nan
     end).
Proof. reflexivity. Qed.

(** Rounding a mantissa of 53 digits. *)
Lemma binary_round_aux_53 (m e : Z) (l : location) :
  2 ^ 52 <= m < 2 ^ 53 -> -1074 <= e -> e + 1 <= 971 ->
  binary_round_aux prec emax false m e l = rounded_double (round_nearest_even m l) e.
Proof.
  intros Hm He1 He2. rewrite binary_round_aux_unfold.
  rewrite (shr_fexp_eq m e l 0) by (try apply Zdigits2_unique; simpl; lia).
  cbn [shr]. rewrite shr_m_of_loc, loc_of_shr_of_loc.
  apply round_finish; try lia.
  pose proof (round_nearest_even_bounds m l). lia.
Qed.

(** Rounding a longer mantissa: [n] digits are shifted out. *)
Lemma binary_round_aux_shift (m e : Z) (l : location) (n : Z) :
  0 < n -> 2 ^ (52 + n) <= m < 2 ^ (53 + n) -> -1074 <= e -> e + n + 1 <= 971 ->
  exists M,
    binary_round_aux prec emax false m e l = rounded_double M (e + n)
    /\ m / 2 ^ n <= M <= m / 2 ^ n + 1
    /\ 2 ^ 52 <= m / 2 ^ n < 2 ^ 53
    /\ (n = 1 -> Z.even m = true -> M = m / 2).
Proof.
  intros Hn Hm He1 He2.
  assert (Hq : 2 ^ 52 <= m / 2 ^ n < 2 ^ 53).
  { assert (0 < 2 ^ n) by (apply Z.pow_pos_nonneg; lia).
    rewrite !Z.pow_add_r in Hm by lia. split.
    - apply Z.div_le_lower_bound; lia.
    - apply Z.div_lt_upper_bound; lia. }
  rewrite binary_round_aux_unfold.
  rewrite (shr_fexp_eq m e l n) by (try apply Zdigits2_unique; try lia;
    replace (53 + n - 1) with (52 + n) by lia; exact Hm).
  destruct n as [|p|p]; try lia. cbn [shr].
  assert (Hm0 : 0 <= shr_m (shr_record_of_loc m l)).
  { rewrite shr_m_of_loc. pose proof (Z.pow_pos_nonneg 2 (52 + Zpos p)). lia. }
  destruct (iter_pos_shr_m p _ Hm0) as [_ Em]. rewrite shr_m_of_loc in Em.
  set (mrs := iter_pos shr_1 p (shr_record_of_loc m l)) in *.
  pose proof (round_nearest_even_bounds (shr_m mrs) (loc_of_shr_record mrs)) as HM.
  rewrite Em in HM |- *.
  exists (round_nearest_even (m / 2 ^ Zpos p) (loc_of_shr_record mrs)).
  split; [| split; [exact HM | split; [exact Hq |]]].
  - apply round_finish; lia.
  - intros Hp Hev. injection Hp as ->. unfold mrs. simpl iter_pos.
    change (2 ^ 1) with 2.
    rewrite shr_m_of_loc in Hm0.
    destruct m as [|[q|q|]|q]; try discriminate Hev; try (simpl in Hm; lia).
    change (Zpos q~0) with (2 * Zpos q).
    replace (2 * Zpos q / 2) with (Zpos q) by (apply Z.div_unique with 0; lia).
    by destruct l as [|[]].
Qed.

Lemma iter_xO (p k : positive) : Zpos (Pos.iter xO p k) = Zpos p * 2 ^ Zpos k.
Proof.
  induction k as [|k IH] using Pos.peano_ind.
  - simpl. lia.
  - rewrite Pos.iter_succ.
    change (Zpos (Pos.iter xO p k)~0) with (2 * Zpos (Pos.iter xO p k)).
    rewrite IH, Pos2Z.inj_succ, Z.pow_succ_r by lia. ring.
Qed.

(** A number of at most 53 digits is a double as it stands, its mantissa
    shifted to 53 digits. *)
Lemma binary_normalize_exact (F e : Z) :
  0 < F -> Zdigits2 F <= 53 -> -1074 <= e - (53 - Zdigits2 F) -> e <= 970 ->
  binary_normalize prec emax F e false
  = S754_finite false (Z.to_pos (F * 2 ^ (53 - Zdigits2 F))) (e - (53 - Zdigits2 F)).
Proof.
  intros HF Hd He1 He2. destruct F as [|p|p]; try lia.
  pose proof (Zdigits2_bounds (Zpos p) HF) as Hb.
  pose proof (Zdigits2_pos (Zpos p) HF) as Hpos.
  simpl Zdigits2 in *. set (d := Zpos (digits2_pos p)) in *.
  unfold binary_normalize, binary_round, shl_align. fold d.
  rewrite fexp53_eq by lia.
  replace (d + e - 53 - e) with (d - 53) by lia.
  destruct (d - 53) as [|k|k] eqn:Ek; try lia.
  - assert (d = 53) as Hd53 by lia. rewrite Hd53 in *.
    change (53 - 1) with 52 in Hb.
    rewrite binary_round_aux_53 by lia.
    simpl round_nearest_even. unfold rounded_double.
    destruct (Z.ltb_spec (Zpos p) (2 ^ 53)) as [_ | Hbad]; [| lia].
    f_equal; [| lia]. simpl. by rewrite Pos.mul_1_r.
  - assert (Ek' : 53 - d = Zpos k) by lia. rewrite Ek'.
    assert (Hm : 2 ^ 52 <= Zpos p * 2 ^ Zpos k < 2 ^ 53).
    { assert (E52 : 2 ^ 52 = 2 ^ (d - 1) * 2 ^ Zpos k)
        by (rewrite <- Z.pow_add_r by lia; f_equal; lia).
      assert (E53 : 2 ^ 53 = 2 ^ d * 2 ^ Zpos k)
        by (rewrite <- Z.pow_add_r by lia; f_equal; lia).
      assert (0 < 2 ^ Zpos k) by (apply Z.pow_pos_nonneg; lia).
      rewrite E52, E53. split.
      - apply Z.mul_le_mono_nonneg_r; lia.
      - apply Z.mul_lt_mono_pos_r; lia. }
    rewrite binary_round_aux_53 by (rewrite ?iter_xO; lia).
    simpl round_nearest_even. unfold rounded_double. rewrite iter_xO.
    destruct (Z.ltb_spec (Zpos p * 2 ^ Zpos k) (2 ^ 53)) as [_ | Hbad]; [| lia].
    f_equal; lia.
Qed.

Lemma of_int_exact (u : Z) :
  0 < u < 2 ^ 53 ->
  Float.of_int u
  = Ok (S754_finite false (Z.to_pos (u * 2 ^ (53 - Zdigits2 u))) (Zdigits2 u - 53)).
Proof.
  intros Hu.
  assert (Hd : Zdigits2 u <= 53).
  { pose proof (Zdigits2_bounds u (proj1 Hu)) as [Hb _].
    destruct (Z.le_gt_cases (Zdigits2 u) 53) as [H | H]; [exact H |].
    assert (2 ^ 53 <= 2 ^ (Zdigits2 u - 1)) by (apply Z.pow_le_mono_r; lia). lia. }
  pose proof (Zdigits2_pos u (proj1 Hu)) as Hpos.
  unfold Float.of_int. rewrite binary_normalize_exact by lia.
  do 2 f_equal. lia.
Qed.

Lemma SFdiv_million (m1 : positive) (e1 : Z) :
  2 ^ 52 <= Zpos m1 < 2 ^ 53 -> -52 <= e1 <= 0 ->
  SFdiv prec emax (S754_finite false m1 e1) Float.million
  = binary_round_aux prec emax false (Zpos m1 * 2 ^ 53 / million_mantissa) (e1 - 20)
      (new_location million_mantissa (Zpos m1 * 2 ^ 53 mod million_mantissa)).
Proof.
  intros Hm He. unfold SFdiv, SFdiv_core_binary, Float.million. cbv zeta.
  rewrite (Zdigits2_unique (Zpos m1) 53) by (simpl; lia).
  change (Zdigits2 (Zpos 8589934592000000)) with 53.
  replace (fexp prec emax (53 + e1 - (53 + -33))) with (e1 - 20)
    by (rewrite fexp53_eq; lia).
  rewrite Z.min_l by lia.
  replace (e1 - -33 - (e1 - 20)) with 53 by lia.
  cbv beta iota. rewrite Z.shiftl_mul_pow2 by lia.
  unfold Z.div, Z.modulo, million_mantissa.
  by destruct (Z.div_eucl (Zpos m1 * 2 ^ 53) (Zpos 8589934592000000)) as [q r].
Qed.

Lemma pow2_split (a b : Z) : 0 <= a -> 0 <= b -> 2 ^ (a + b) = 2 ^ a * 2 ^ b.
Proof. intros. by apply Z.pow_add_r. Qed.

(** The quotient [u / 10e5] of an [int] below [2^53]: for the [j] that gives
    53 digits, its mantissa is [u * 2^j / 10^6] rounded to an integer, one
    way or the other. *)
Lemma truediv_10e5_spec (u : Z) :
  0 < u < 2 ^ 53 ->
  exists j M,
    Float.truediv_10e5 u = Ok (rounded_double M (- j))
    /\ 19 <= j <= 72
    /\ 2 ^ 52 <= u * 2 ^ j / 1000000 < 2 ^ 53
    /\ u * 2 ^ j / 1000000 <= M <= u * 2 ^ j / 1000000 + 1
    /\ (j = 19 -> Z.even (u * 2 ^ 20 / 1000000) = true -> M = u * 2 ^ 19 / 1000000).
Proof.
  intros Hu.
  pose proof (Zdigits2_bounds u (proj1 Hu)) as Hb.
  pose proof (Zdigits2_pos u (proj1 Hu)) as Hpos.
  set (d := Zdigits2 u) in *.
  assert (Hd : d <= 53).
  { destruct (Z.le_gt_cases d 53) as [H | H]; [exact H |].
    assert (2 ^ 53 <= 2 ^ (d - 1)) by (apply Z.pow_le_mono_r; lia). lia. }
  set (s := 2 ^ (53 - d)).
  assert (Hs : 0 < s) by (apply Z.pow_pos_nonneg; lia).
  assert (Hm1 : 2 ^ 52 <= u * s < 2 ^ 53).
  { assert (E52 : 2 ^ 52 = 2 ^ (d - 1) * s)
      by (unfold s; rewrite <- Z.pow_add_r by lia; f_equal; lia).
    assert (E53 : 2 ^ 53 = 2 ^ d * s)
      by (unfold s; rewrite <- Z.pow_add_r by lia; f_equal; lia).
    rewrite E52, E53. split.
    - apply Z.mul_le_mono_nonneg_r; lia.
    - apply Z.mul_lt_mono_pos_r; lia. }
  assert (Hq : u * s * 2 ^ 53 / million_mantissa = u * 2 ^ (73 - d) / 1000000).
  { replace (73 - d) with (53 - d + 20) by lia. rewrite pow2_split by lia. fold s.
    replace (u * s * 2 ^ 53) with (u * (s * 2 ^ 20) * 2 ^ 33) by ring.
    change million_mantissa with (1000000 * 2 ^ 33).
    rewrite Z.div_mul_cancel_r by lia. reflexivity. }
  unfold Float.truediv_10e5. rewrite of_int_exact by exact Hu. fold d. fold s.
  unfold mbind, result_bind, mret, result_ret.
  assert (Hp : Zpos (Z.to_pos (u * s)) = u * s) by (apply Z2Pos.id; lia).
  rewrite SFdiv_million by (rewrite ?Hp; lia).
  rewrite Hp, Hq.
  set (q := u * 2 ^ (73 - d) / 1000000) in *.
  set (l := new_location million_mantissa (u * s * 2 ^ 53 mod million_mantissa)).
  assert (Hqb : 2 ^ 52 <= q < 2 ^ 54).
  { rewrite <- Hq. unfold million_mantissa. split.
    - apply Z.div_le_lower_bound; lia.
    - apply Z.div_lt_upper_bound; lia. }
  destruct (Z.lt_ge_cases q (2 ^ 53)) as [Hlt | Hge].
  - exists (73 - d), (round_nearest_even q l).
    rewrite binary_round_aux_53 by lia.
    split; [do 2 f_equal; lia |]. split; [lia |]. fold q.
    split; [lia |]. split; [apply round_nearest_even_bounds |]. lia.
  - destruct (binary_round_aux_shift q (d - 53 - 20) l 1) as (M & HM & Hb1 & Hb2 & Hev);
      try lia.
    change (2 ^ 1) with 2 in *.
    assert (Hhalf : q / 2 = u * 2 ^ (72 - d) / 1000000).
    { unfold q. replace (73 - d) with (72 - d + 1) by lia.
      rewrite pow2_split by lia. change (2 ^ 1) with 2.
      rewrite Z.div_div by lia.
      replace (u * (2 ^ (72 - d) * 2)) with (u * 2 ^ (72 - d) * 2) by ring.
      rewrite Z.div_mul_cancel_r by lia. reflexivity. }
    exists (72 - d), M. rewrite HM. rewrite <- Hhalf.
    split; [do 2 f_equal; lia |]. split; [lia |].
    split; [exact Hb2 |]. split; [exact Hb1 |].
    intros Hj Heven. rewrite Hhalf in Hev. replace (72 - d) with 19 in Hev by lia.
    apply Hev; [reflexivity |].
    unfold q. replace (73 - d) with 20 by lia. exact Heven.
Qed.

(** The integral part of the quotient is the quotient of the integers, and
    its fractional part stays clear of the next second. *)
Lemma quotient_parts (u j M : Z) :
  0 < u < 2 ^ 53 -> 19 <= j <= 72 ->
  2 ^ 52 <= u * 2 ^ j / 1000000 < 2 ^ 53 ->
  u * 2 ^ j / 1000000 <= M <= u * 2 ^ j / 1000000 + 1 ->
  (j = 19 -> Z.even (u * 2 ^ 20 / 1000000) = true -> M = u * 2 ^ 19 / 1000000) ->
  M < 2 ^ 53
  /\ M / 2 ^ j = u / 1000000
  /\ 0 <= M mod 2 ^ j
  /\ 2 * (2 ^ 52 + 1) * 1000000 * (M mod 2 ^ j) < 1999999 * 2 ^ 52 * 2 ^ j.
Proof.
  intros Hu Hj HM0 HM Hev.
  set (T := 2 ^ j) in *. set (M0 := u * T / 1000000) in *.
  set (k := u / 1000000). set (r := u mod 1000000).
  assert (Hur : u = 1000000 * k + r) by (apply Z.div_mod; lia).
  assert (Hr : 0 <= r < 1000000) by (apply Z.mod_pos_bound; lia).
  assert (Hk : 0 <= k) by (apply Z.div_pos; lia).
  assert (HT : 0 < T) by (apply Z.pow_pos_nonneg; lia).
  assert (Hlo : 1000000 * M0 <= u * T) by (apply Z.mul_div_le; lia).
  assert (Hhi : u * T < 1000000 * M0 + 1000000).
  { pose proof (Z.mul_succ_div_gt (u * T) 1000000). fold M0 in H. lia. }
  assert (HuT : u * T = 1000000 * (k * T) + r * T) by (rewrite Hur at 1; ring).
  assert (HrT : 0 <= r * T <= 999999 * T) by nia.
  assert (HkT : 0 <= k * T) by nia.
  assert (Hcore : M < 2 ^ 53 /\ 0 <= M - k * T < T
            /\ 2 * (2 ^ 52 + 1) * 1000000 * (M - k * T) < 1999999 * 2 ^ 52 * T).
  { destruct (Z.eq_dec j 19) as [E19 | N19]; [| destruct (Z.eq_dec j 20) as [E20 | N20]].
    - assert (ET : T = 524288) by (unfold T; rewrite E19; reflexivity).
      assert (Hev' : Z.even (u * 2 ^ 20 / 1000000) = true -> M = M0).
      { intros H. unfold M0. rewrite ET. by apply Hev. }
      set (q := u * 2 ^ 20 / 1000000) in *.
      assert (Hq1 : 1000000 * q <= u * 2 ^ 20) by (apply Z.mul_div_le; lia).
      assert (Hq2 : u * 2 ^ 20 < 1000000 * q + 1000000).
      { pose proof (Z.mul_succ_div_gt (u * 2 ^ 20) 1000000). fold q in H. lia. }
      clearbody q M0 T k r. subst T.
      destruct (Z.eq_dec M M0) as [EM | NM]; [lia |].
      destruct (Z.eq_dec M0 (k * 524288 + 524287)) as [Etop | Ntop]; [| lia].
      exfalso. apply NM.
      assert (Hq : q = 2 * M0) by lia.
      apply Hev'. rewrite Hq, Z.even_mul. reflexivity.
    - assert (ET : T = 1048576) by (unfold T; rewrite E20; reflexivity).
      clearbody M0 T k r. subst T. lia.
    - assert (ET : T = 1048576 * 2 ^ (j - 20)).
      { unfold T. replace j with (20 + (j - 20)) at 1 by lia.
        rewrite pow2_split by lia. reflexivity. }
      assert (Hw : 2 <= 2 ^ (j - 20)).
      { change 2 with (2 ^ 1) at 1. apply Z.pow_le_mono_r; lia. }
      revert ET Hw. generalize (2 ^ (j - 20)). intros w ET Hw.
      assert (Hv : u * T = 1048576 * (u * w)) by (rewrite ET; ring).
      clearbody M0 T k r.
      revert HuT HrT HkT Hlo Hhi Hv. generalize (k * T) (r * T) (u * T) (u * w).
      intros kT rT uT v HuT HrT HkT Hlo Hhi Hv. lia. }
  destruct Hcore as (H1 & H2 & H3).
  assert (Ediv : M / T = k).
  { symmetry. apply Z.div_unique with (M - k * T); [lia | ring]. }
  assert (Emod : M mod T = M - k * T).
  { symmetry. apply Z.mod_unique with k; [lia | ring]. }
  rewrite Ediv, Emod. split; [exact H1 |]. split; [reflexivity |]. split; lia.
Qed.

Lemma round_half_even_small (m : positive) (e : Z) :
  e < 0 -> 2 * Zpos m < 1999999 * 2 ^ (- e) ->
  0 <= Float.round_half_even (S754_finite false m e) <= 999999.
Proof.
  intros He Hm. unfold Float.round_half_even, cond_Zopp.
  destruct (Z.leb_spec 0 e) as [Hbad | _]; [lia |].
  assert (Hden : 0 < 2 ^ (- e)) by (apply Z.pow_pos_nonneg; lia).
  revert Hm Hden. generalize (2 ^ (- e)). intros den Hm Hden.
  pose proof (Z.div_mod (Zpos m) den ltac:(lia)) as Hdm.
  pose proof (Z.mod_pos_bound (Zpos m) den Hden) as Hr.
  assert (Hq : 0 <= Zpos m / den) by (apply Z.div_pos; lia).
  revert Hdm Hr Hq. generalize (Zpos m / den) (Zpos m mod den). intros q r Hdm Hr Hq.
  assert (Hle : q <= 999999) by nia.
  destruct (Z.compare_spec (2 * r) den) as [E | L | G].
  - assert (q <= 999998) by nia. destruct (Z.even q); lia.
  - lia.
  - assert (q <= 999998) by nia. lia.
Qed.

Lemma round_half_even_pack (M E : Z) :
  2 ^ 52 <= M <= 2 ^ 53 -> E < -1 -> 2 * M < 1999999 * 2 ^ (- E) ->
  0 <= Float.round_half_even (rounded_double M E) <= 999999.
Proof.
  intros HM HE Hlt. unfold rounded_double.
  destruct (Z.ltb_spec M (2 ^ 53)) as [H | H].
  - apply round_half_even_small; [lia |]. rewrite Z2Pos.id by lia. exact Hlt.
  - apply round_half_even_small; [lia |].
    replace (- E) with (1 + - (E + 1)) in Hlt by lia.
    rewrite pow2_split in Hlt by lia. change (2 ^ 1) with 2 in Hlt.
    revert Hlt. generalize (2 ^ (- (E + 1))). intros x Hlt. lia.
Qed.

(** The fractional part times [1e6], rounded, stays below a million. *)
Lemma fraction_rounds_below (G j : Z) :
  0 < G < 2 ^ 53 -> 19 <= j <= 72 -> G < 2 ^ j ->
  2 * (2 ^ 52 + 1) * 1000000 * G < 1999999 * 2 ^ 52 * 2 ^ j ->
  0 <= Float.round_half_even
         (SFmul prec emax (binary_normalize prec emax G (- j) false) Float.million)
    <= 999999.
Proof.
  intros HG Hj HGj Hiii.
  pose proof (Zdigits2_bounds G (proj1 HG)) as Hb.
  pose proof (Zdigits2_pos G (proj1 HG)) as Hpos.
  set (d := Zdigits2 G) in *.
  assert (Hd : d <= 53 /\ d <= j).
  { split.
    - destruct (Z.le_gt_cases d 53) as [H | H]; [exact H |].
      assert (2 ^ 53 <= 2 ^ (d - 1)) by (apply Z.pow_le_mono_r; lia). lia.
    - destruct (Z.le_gt_cases d j) as [H | H]; [exact H |].
      assert (2 ^ j <= 2 ^ (d - 1)) by (apply Z.pow_le_mono_r; lia). lia. }
  rewrite binary_normalize_exact by (fold d; lia). fold d.
  set (s := 2 ^ (53 - d)).
  assert (Hs : 0 < s) by (apply Z.pow_pos_nonneg; lia).
  assert (HGs : 2 ^ 52 <= G * s < 2 ^ 53).
  { assert (E52 : 2 ^ 52 = 2 ^ (d - 1) * s)
      by (unfold s; rewrite <- Z.pow_add_r by lia; f_equal; lia).
    assert (E53 : 2 ^ 53 = 2 ^ d * s)
      by (unfold s; rewrite <- Z.pow_add_r by lia; f_equal; lia).
    rewrite E52, E53. split.
    - apply Z.mul_le_mono_nonneg_r; lia.
    - apply Z.mul_lt_mono_pos_r; lia. }
  unfold SFmul, Float.million. change (xorb false false) with false.
  rewrite Pos2Z.inj_mul, Z2Pos.id by lia. fold million_mantissa.
  set (e := - j - (53 - d) + -33).
  set (P := G * s * million_mantissa).
  assert (HP : 2 ^ 104 <= P < 2 ^ 106) by (unfold P, million_mantissa; nia).
  assert (Hshift : exists n M',
            0 < n <= 53
            /\ binary_round_aux prec emax false P e loc_Exact = rounded_double M' (e + n)
            /\ P / 2 ^ n <= M' <= P / 2 ^ n + 1
            /\ 2 ^ 52 <= P / 2 ^ n < 2 ^ 53).
  { destruct (Z.lt_ge_cases P (2 ^ 105)) as [Hlt | Hge].
    - destruct (binary_round_aux_shift P e loc_Exact 52) as (M' & H1 & H2 & H3 & _);
        try (unfold e; lia); try (simpl; lia).
      exists 52, M'. split; [lia |]. by split.
    - destruct (binary_round_aux_shift P e loc_Exact 53) as (M' & H1 & H2 & H3 & _);
        try (unfold e; lia); try (simpl; lia).
      exists 53, M'. split; [lia |]. by split. }
  destruct Hshift as (n & M' & Hn & -> & HM' & HQ).
  apply round_half_even_pack; [lia | unfold e; lia |].
  (* the quotient, scaled back, against the bound on [G] *)
  set (D := 2 ^ n) in *. set (X := 2 ^ (- (e + n))). set (T := 2 ^ j) in *.
  set (W := s * 2 ^ 33).
  assert (HD : 0 < D) by (apply Z.pow_pos_nonneg; lia).
  assert (HW : 0 < W) by (unfold W; lia).
  assert (HXD : X * D = T * W).
  { unfold X, D, T, W, s. rewrite <- !Z.pow_add_r by (unfold e; lia).
    f_equal. unfold e. lia. }
  assert (HPW : P = 1000000 * (G * W)) by (unfold P, W, million_mantissa; ring).
  assert (HQD : P / D * D <= P) by (rewrite Z.mul_comm; apply Z.mul_div_le; lia).
  assert (H1 : 2 ^ 52 * (M' * D) <= (2 ^ 52 + 1) * (P / D * D)).
  { replace (2 ^ 52 * (M' * D)) with (2 ^ 52 * M' * D) by ring.
    replace ((2 ^ 52 + 1) * (P / D * D)) with ((2 ^ 52 + 1) * (P / D) * D) by ring.
    apply Z.mul_le_mono_nonneg_r; lia. }
  assert (H2 : 2 * (2 ^ 52 + 1) * 1000000 * (G * W) < 1999999 * 2 ^ 52 * (T * W)).
  { replace (2 * (2 ^ 52 + 1) * 1000000 * (G * W))
      with (2 * (2 ^ 52 + 1) * 1000000 * G * W) by ring.
    replace (1999999 * 2 ^ 52 * (T * W)) with (1999999 * 2 ^ 52 * T * W) by ring.
    apply Z.mul_lt_mono_pos_r; [exact HW | exact Hiii]. }
  rewrite <- HXD in H2.
  apply (Z.mul_lt_mono_pos_r D); [exact HD |].
  revert H1 H2 HQD HPW.
  replace (2 * M' * D) with (2 * (M' * D)) by ring.
  replace (1999999 * X * D) with (1999999 * (X * D)) by ring.
  generalize (M' * D) (P / D * D) (G * W) (X * D). intros a b c xd H1 H2 HQD HPW. lia.
Qed.

(** For an [int] from 0 to below [2^53], the float quotient [u / 10e5]
    exists and [datetime.fromtimestamp] reads it as the second
    [u / 1000000] of the integers. *)
Lemma seconds_of_quotient (u : Z) :
  0 <= u < 2 ^ 53 ->
  exists t us,
    Float.truediv_10e5 u = Ok t
    /\ Float.seconds_and_microseconds t = (u / 1000000, us)
    /\ 0 <= us <= 999999.
Proof.
  intros [Hu0 Hu].
  destruct (Z.eq_dec u 0) as [-> | Hne].
  { exists (S754_zero false), 0. split; [reflexivity |]. split; [reflexivity | lia]. }
  assert (Hu' : 0 < u < 2 ^ 53) by lia.
  destruct (truediv_10e5_spec u Hu') as (j & M & Ht & Hj & HM0 & HM & Hev).
  destruct (quotient_parts u j M Hu' Hj HM0 HM Hev) as (HM53 & Hdiv & HG & Hiii).
  exists (rounded_double M (- j)). unfold rounded_double.
  destruct (Z.ltb_spec M (2 ^ 53)) as [_ | Hbad]; [| lia].
  unfold rounded_double in Ht. destruct (Z.ltb_spec M (2 ^ 53)) as [_ | Hbad]; [| lia].
  assert (HT : 0 < 2 ^ j) by (apply Z.pow_pos_nonneg; lia).
  assert (HGj : M mod 2 ^ j < 2 ^ j) by (apply Z.mod_pos_bound; exact HT).
  assert (HGM : M mod 2 ^ j <= M) by (apply Z.mod_le; lia).
  unfold Float.seconds_and_microseconds, Float.modf.
  destruct (Z.leb_spec 0 (- j)) as [Hbad | _]; [lia |].
  unfold cond_Zopp. rewrite Z.opp_involutive, Z2Pos.id, Hdiv by lia.
  destruct (Z.eq_dec (M mod 2 ^ j) 0) as [E0 | N0].
  - rewrite E0. exists 0. split; [exact Ht |]. split; [reflexivity | lia].
  - pose proof (fraction_rounds_below (M mod 2 ^ j) j ltac:(lia) Hj HGj Hiii) as Hus.
    revert Hus.
    generalize (Float.round_half_even
                  (SFmul prec emax (binary_normalize prec emax (M mod 2 ^ j) (- j) false)
                     Float.million)).
    intros us Hus. exists us. split; [exact Ht |].
    destruct (Z.leb_spec 1000000 us) as [Hbad | _]; [lia |].
    destruct (Z.ltb_spec us 0) as [Hbad | _]; [lia |].
    split; [reflexivity | exact Hus].
Qed.

End FloatFacts.

(** ** Metadata *)

(** C6. Whatever the three flags, the record [new_tbundle_meta] builds has
    [pinnedDate], [archivedDate] and [trashedDate] equal to the modification
    timestamp where the flag is true and null where it is false; and when the
    timestamp of a note converts, [convert_metadata] returns a record of which
    the same holds, for the flags of the note. *)
Theorem new_tbundle_meta_dates (created_ts mod_ts : string)
    (pinned archived trashed : bool) (note : Note) (w : World) :
  (exists meta w',
     new_tbundle_meta created_ts mod_ts pinned archived trashed w = (Ok meta, w')
     /\ modificationDate (net_shinyfrog_bear meta) = mod_ts
     /\ pinnedDate (net_shinyfrog_bear meta) = (if pinned then Some mod_ts else None)
     /\ archivedDate (net_shinyfrog_bear meta) = (if archived then Some mod_ts else None)
     /\ trashedDate (net_shinyfrog_bear meta) = (if trashed then Some mod_ts else None))
  /\ (modification_timestamp w (userEditedTimestampUsec note) = Ok mod_ts ->
      exists meta w',
        convert_metadata note created_ts w = (Ok meta, w')
        /\ modificationDate (net_shinyfrog_bear meta) = mod_ts
        /\ pinnedDate (net_shinyfrog_bear meta)
           = (if isPinned note then Some mod_ts else None)
        /\ archivedDate (net_shinyfrog_bear meta)
           = (if isArchived note then Some mod_ts else None)
        /\ trashedDate (net_shinyfrog_bear meta)
           = (if isTrashed note then Some mod_ts else None)).
Proof.
  split.
  - eexists _, _. split; [reflexivity |]. simpl. done.
  - intros H. rewrite run_convert_metadata, H.
    eexists _, _. split; [reflexivity |]. simpl. done.
Qed.

Lemma new_tbundle_meta_dates_witness :
  exists meta w',
    convert_metadata groceries_note "2020-09-14T08:00:00+00:00" fresh_host = (Ok meta, w')
    /\ modificationDate (net_shinyfrog_bear meta) = "2020-09-13T12:26:40+00:00"
    /\ pinnedDate (net_shinyfrog_bear meta) = Some "2020-09-13T12:26:40+00:00"
    /\ archivedDate (net_shinyfrog_bear meta) = None
    /\ trashedDate (net_shinyfrog_bear meta) = None.
Proof.
  exact (proj2 (new_tbundle_meta_dates "2020-09-14T08:00:00+00:00"
                  "2020-09-13T12:26:40+00:00" true false false groceries_note
                  fresh_host) eq_refl).
Defined.

Lemma modification_timestamp_seconds (w : World) (usec : Z) :
  (0 <= usec < 2 ^ 53)%Z ->
  modification_timestamp w usec
  = match fromtimestamp_raises w (usec / 1000000) with
    | Some e => Raise e
    | None => local_iso w {| second := usec / 1000000; microsecond := 0 |}
    end.
Proof.
  intros H. destruct (seconds_of_quotient usec H) as (t & us & Ht & Hs & _).
  unfold modification_timestamp, fromtimestamp, datetime_to_str, lift, mbind, M_bind.
  rewrite Ht, Hs. by destruct (fromtimestamp_raises w (usec / 1000000)).
Qed.

(** C7, as the code has it.  For a note edited [u] microseconds after the
    epoch, [u] from 0 to below [2^53], the float quotient [u / 10e5] is read
    as the whole second [u / 1000000] of the integers; the modification
    timestamp is what the host renders that second as, in its time zone and
    in ISO format, the microsecond being 0; and when the clock of the host
    refuses that second, or its rendering, [convert_metadata] raises what
    the clock raises, with nothing drawn. *)
Theorem convert_metadata_timestamp (note : Note) (created_ts : string) (w : World) :
  (0 <= userEditedTimestampUsec note < 2 ^ 53)%Z ->
  let sec := (userEditedTimestampUsec note / 1000000)%Z in
  convert_metadata note created_ts w
  = match fromtimestamp_raises w sec with
    | Some e => (Raise e, w)
    | None =>
        match local_iso w {| second := sec; microsecond := 0 |} with
        | Raise e => (Raise e, w)
        | Ok mod_ts =>
            new_tbundle_meta created_ts mod_ts (isPinned note) (isArchived note)
              (isTrashed note) w
        end
    end.
Proof.
  intros H sec. rewrite run_convert_metadata, modification_timestamp_seconds by exact H.
  fold sec. destruct (fromtimestamp_raises w sec) as [e|]; [reflexivity |].
  by destruct (local_iso w {| second := sec; microsecond := 0 |}).
Qed.

Lemma convert_metadata_timestamp_witness :
  (1600000000000000 / 1000000 = 1600000000)%Z
  /\ convert_metadata groceries_note "2020-09-14T08:00:00+00:00" fresh_host
     = new_tbundle_meta "2020-09-14T08:00:00+00:00" "2020-09-13T12:26:40+00:00"
         true false false fresh_host.
Proof.
  split; [reflexivity |].
  apply (convert_metadata_timestamp groceries_note "2020-09-14T08:00:00+00:00"
           fresh_host).
  simpl. lia.
Defined.

(** C7, as the claim has it, fails.  An edited time of 9007199254999999
    microseconds lies in the second 9007199254, which the example host
    renders as 23:47:34; the float quotient rounds up to the next second, and
    the timestamp reads 23:47:35.  The same happens at 19999999999999999.
    And an edited time of [10^400] has no timestamp at all: the conversion
    to a float raises. *)
Lemma late_edit_reads_one_second_late :
  (9007199254999999 / 1000000 = 9007199254)%Z
  /\ local_iso fresh_host {| second := 9007199254; microsecond := 0 |}
     = Ok "2255-06-05T23:47:34+00:00"
  /\ modification_timestamp fresh_host 9007199254999999
     = Ok "2255-06-05T23:47:35+00:00"
  /\ local_iso fresh_host {| second := 19999999999; microsecond := 0 |}
     = Ok "2603-10-11T11:33:19+00:00"
  /\ modification_timestamp fresh_host 19999999999999999
     = Ok "2603-10-11T11:33:20+00:00"
  /\ modification_timestamp fresh_host (10 ^ 400)
     = Raise (OverflowError "int too large to convert to float").
Proof. repeat split; vm_compute; reflexivity. Qed.

(** ** Facts about slices, digits and paths *)

Lemma length_take (n : nat) (s : string) :
  String.length (Py.take n s) = n `min` String.length s.
Proof.
  revert s. induction n as [|n IH]; intros [|c s]; simpl; try reflexivity.
  by rewrite IH.
Qed.

Lemma length_drop (n : nat) (s : string) :
  String.length (Py.drop n s) = String.length s - n.
Proof.
  revert s. induction n as [|n IH]; intros [|c s]; simpl; try reflexivity.
  by rewrite IH.
Qed.

Lemma char_in_take (c : ascii) (n : nat) (s : string) :
  Py.char_in c s = false -> Py.char_in c (Py.take n s) = false.
Proof.
  revert s. induction n as [|n IH]; intros [|d s]; simpl; try reflexivity.
  intros H. apply orb_false_elim in H as [-> H]. by rewrite IH.
Qed.

Lemma char_in_drop (c : ascii) (n : nat) (s : string) :
  Py.char_in c s = false -> Py.char_in c (Py.drop n s) = false.
Proof.
  revert s. induction n as [|n IH]; intros [|d s]; simpl; try done.
  intros H. apply orb_false_elim in H as [_ H]. by apply IH.
Qed.

Lemma char_in_filter (c : ascii) (keep : ascii -> bool) (s : string) :
  keep c = false -> Py.char_in c (Py.filter_chars keep s) = false.
Proof.
  intros Hc. induction s as [|d s IH]; simpl; [reflexivity |].
  destruct (keep d) eqn:Hd; [| exact IH]. simpl. rewrite IH, orb_false_r.
  destruct (Ascii.eqb_spec c d) as [-> |]; [congruence | reflexivity].
Qed.

Lemma take_append (n : nat) (a b : string) :
  n <= String.length a -> Py.take n (a +:+ b) = Py.take n a.
Proof.
  revert a. induction n as [|n IH]; intros a H.
  - by destruct a, b.
  - destruct a as [|c a]; simpl in *; [lia |].
    rewrite IH by lia. reflexivity.
Qed.

Lemma length_hex (width : nat) (n : N) : String.length (hex width n) = width.
Proof.
  revert n. induction width as [|w IH]; intros n; simpl; [reflexivity |].
  rewrite length_append, IH. simpl. lia.
Qed.

Lemma hex_length32 (n : N) : String.length (hex 32 n) = 32.
Proof. apply length_hex. Qed.

Lemma hex_digit_no_slash (d : N) : Ascii.eqb "/" (hex_digit d) = false.
Proof.
  destruct d as [|p]; [reflexivity |].
  do 4 (destruct p as [p|p|]; try reflexivity).
Qed.

Lemma hex_no_slash (width : nat) (n : N) : no_slash (hex width n).
Proof.
  unfold no_slash. revert n. induction width as [|w IH]; intros n; simpl; [reflexivity |].
  rewrite char_in_append, IH. simpl. by rewrite hex_digit_no_slash.
Qed.

Lemma drop_0 (s : string) : Py.drop 0 s = s.
Proof. by destruct s. Qed.

(** The disambiguating suffix: the first eight digits of the identifier. *)
Lemma take8_str_uuid (u : N) : Py.take 8 (str_uuid u) = Py.take 8 (hex 32 u).
Proof.
  unfold str_uuid, Py.slice. generalize (hex_length32 u). generalize (hex 32 u).
  intros h Hh. rewrite drop_0. change (8 - 0) with 8.
  rewrite take_append by (rewrite length_take; lia).
  clear Hh. revert h. generalize 8. induction n as [|n IH]; intros [|c h]; simpl;
    try reflexivity. by rewrite IH.
Qed.

Lemma suffix_length (u : N) : String.length (Py.take 8 (str_uuid u)) = 8.
Proof. rewrite take8_str_uuid, length_take, length_hex. reflexivity. Qed.

Lemma suffix_no_slash (u : N) : no_slash (Py.take 8 (str_uuid u)).
Proof. rewrite take8_str_uuid. apply char_in_take, hex_no_slash. Qed.

Lemma sanitized_no_slash (title : string) : no_slash (sanitized title).
Proof.
  unfold no_slash, sanitized. rewrite char_in_append.
  rewrite char_in_take by (by apply char_in_filter). reflexivity.
Qed.

Lemma sanitized_length (title : string) : 11 <= String.length (sanitized title).
Proof. unfold sanitized. rewrite length_append. simpl. lia. Qed.

Lemma leading_no_slash (s : string) : no_slash s -> Py.leading "/" s = 0.
Proof.
  destruct s as [|c s]; simpl; [reflexivity |].
  intros H. apply orb_false_elim in H as [H _].
  rewrite Ascii.eqb_sym in H. by rewrite H.
Qed.

(** A name without a slash adds at most itself to a path. *)
Lemma joinpath_no_slash (p : path) (s : string) :
  no_slash s ->
  joinpath p s = (p.1, p.2 ++ filter (fun part => part ≠ "" ∧ part ≠ ".") [s]).
Proof.
  intros H. unfold joinpath, parse_path.
  rewrite (leading_no_slash _ H). simpl.
  by rewrite (split_none _ _ H).
Qed.

Lemma joinpath_plain (p : path) (s : string) :
  no_slash s -> 2 <= String.length s -> joinpath p s = (p.1, p.2 ++ [s]).
Proof.
  intros H Hlen. rewrite (joinpath_no_slash _ _ H).
  rewrite filter_cons_True; [reflexivity |].
  split; intros ->; simpl in Hlen; lia.
Qed.

Lemma name_no_slash (p : path) : wf_path p -> no_slash (name p).
Proof.
  unfold wf_path, name. generalize p.2. intros l H.
  induction H as [|x l Hx Hl IH]; [reflexivity |].
  destruct l; [exact Hx | exact IH].
Qed.

Lemma parent_snoc (root : string) (parts : list string) (s : string) :
  parent (root, parts ++ [s]) = (root, parts).
Proof. unfold parent. simpl. by rewrite removelast_last. Qed.

Lemma name_snoc (root : string) (parts : list string) (s : string) :
  name (root, parts ++ [s]) = s.
Proof. unfold name. simpl. by rewrite last_last. Qed.

Lemma append_neq (a b : string) : b <> "" -> a +:+ b <> a.
Proof.
  intros Hb E. apply (f_equal String.length) in E.
  rewrite length_append in E. destruct b; [done | simpl in E; lia].
Qed.

(** ** What a computation may write *)

Section Frame.

Variable P : path -> Prop.

Lemma touches_ret {A} (a : A) : touches_only P (mret a : M A).
Proof. by intros w q _. Qed.

Lemma touches_raise {A} (e : exception) : touches_only P (raise e : M A).
Proof. by intros w q _. Qed.

Lemma touches_node_at (p : path) : touches_only P (node_at p).
Proof. by intros w q _. Qed.

Lemma touches_bind {A B} (m : M A) (f : A -> M B) :
  touches_only P m -> (forall a, touches_only P (f a)) -> touches_only P (m ≫= f).
Proof.
  intros Hm Hf w q Hq. rewrite run_bind.
  specialize (Hm w q Hq). destruct (m w) as [[a|e] w1]; simpl in *.
  - rewrite <- Hm. by apply Hf.
  - exact Hm.
Qed.

Lemma touches_put_node (p : path) (n : node) : P p -> touches_only P (put_node p n).
Proof.
  intros Hp w q Hq. simpl. apply lookup_insert_ne. by intros ->.
Qed.

Lemma touches_check_parent (p : path) : touches_only P (check_parent p).
Proof.
  apply touches_bind; [apply touches_node_at |].
  intros [[|c]|]; [apply touches_ret | apply touches_raise | apply touches_raise].
Qed.

Lemma touches_mkdir (p : path) : P p -> touches_only P (mkdir p).
Proof.
  intros Hp. apply touches_bind; [apply touches_node_at |].
  intros [n|]; [apply touches_raise |].
  apply touches_bind; [apply touches_check_parent |].
  intros _. by apply touches_put_node.
Qed.

Lemma touches_write_file (p : path) (c : contents) : P p -> touches_only P (write_file p c).
Proof.
  intros Hp. apply touches_bind; [apply touches_node_at |].
  intros [[|c']|]; [apply touches_raise | by apply touches_put_node |].
  apply touches_bind; [apply touches_check_parent |].
  intros _. by apply touches_put_node.
Qed.

Lemma touches_shutil_copy (src dst : path) :
  P dst -> P (joinpath dst (name src)) -> touches_only P (shutil_copy src dst).
Proof.
  intros Hdst Hjoin. apply touches_bind; [apply touches_node_at |].
  intros d. apply touches_bind; [apply touches_node_at |].
  intros [[|c]|]; [apply touches_raise | | apply touches_raise].
  case_decide; [apply touches_raise |].
  apply touches_write_file. by destruct d as [[|c']|].
Qed.

Lemma touches_for_each {A} (l : list A) (body : A -> M unit) :
  Forall (fun x => touches_only P (body x)) l -> touches_only P (for_each l body).
Proof.
  induction 1 as [|x l Hx _ IH]; simpl; [apply touches_ret |].
  apply touches_bind; [exact Hx | by intros _].
Qed.

End Frame.

Lemma below_joinpath (p q : path) (s : string) :
  no_slash s -> (q = p \/ below p q) -> 2 <= String.length s -> below p (joinpath q s).
Proof.
  intros Hs Hq Hlen. rewrite joinpath_plain by done.
  destruct Hq as [-> | [H1 (k & Hk & H2)]].
  - split; [done |]. by exists [s].
  - split; [done |]. exists (k ++ [s]). split; [by destruct k |].
    simpl. by rewrite H2, <- app_assoc.
Qed.

(** A name without a slash keeps a path where it is or goes one step down. *)
Lemma below_joinpath_name (p q : path) (s : string) :
  no_slash s -> below p q -> below p (joinpath q s).
Proof.
  intros Hs [H1 (k & Hk & H2)]. rewrite joinpath_no_slash by done.
  split; [done |]. simpl.
  exists (k ++ filter (fun part => part ≠ "" ∧ part ≠ ".") [s]).
  split; [by destruct k |]. by rewrite H2, <- app_assoc.
Qed.

(** What [write_textbundle] does once the package directory [tb_dir] exists. *)
Lemma touches_fill (tb_dir : path) (text : list string) (meta : TBundle)
    (assets : list path) :
  Forall wf_path assets ->
  touches_only (below tb_dir)
    (match assets with
     | [] => mret tt
     | _ =>
         let asset_dir := joinpath tb_dir TB_ASSET_DIR in
         mkdir asset_dir;;
         for_each assets (fun src_file =>
           let dst_file := joinpath asset_dir (name src_file) in
           shutil_copy src_file dst_file)
     end;;
     write_file (joinpath tb_dir TB_METADATA_FILE) (JsonDumps meta);;
     write_file (joinpath tb_dir TB_CONTENT_FILE) (Written (Py.join Py.nl text))).
Proof.
  intros Hwf.
  assert (Hassets : below tb_dir (joinpath tb_dir TB_ASSET_DIR)).
  { apply below_joinpath; [reflexivity | by left | simpl; lia]. }
  apply touches_bind.
  - destruct assets as [|a assets]; [apply touches_ret |].
    apply touches_bind; [by apply touches_mkdir |]. intros _.
    apply touches_for_each. eapply Forall_impl; [exact Hwf |].
    intros src Hsrc. simpl.
    pose proof (name_no_slash _ Hsrc) as Hname.
    assert (Hdst : below tb_dir (joinpath (joinpath tb_dir TB_ASSET_DIR) (name src)))
      by (by apply below_joinpath_name).
    apply touches_shutil_copy; [exact Hdst |].
    by apply below_joinpath_name.
  - intros _. apply touches_bind.
    + apply touches_write_file.
      apply below_joinpath; [reflexivity | by left | simpl; lia].
    + intros _. apply touches_write_file.
      apply below_joinpath; [reflexivity | by left | simpl; lia].
Qed.

Lemma not_below_self (p : path) : ~ below p p.
Proof.
  intros [_ (k & Hk & E)]. apply Hk.
  apply (f_equal length) in E. rewrite length_app in E.
  destruct k; [done | simpl in E; lia].
Qed.

(** Two different names in one directory: nothing is under both. *)
Lemma under_sibling (dir : path) (a b : string) (q : path) :
  a <> b ->
  under (dir.1, dir.2 ++ [a]) q ->
  q <> (dir.1, dir.2 ++ [b]) /\ ~ below (dir.1, dir.2 ++ [b]) q.
Proof.
  intros Hab [H1 [k Hk]]. simpl in *. split.
  - intros ->. simpl in Hk. rewrite <- app_assoc in Hk.
    apply app_inv_head in Hk. simpl in Hk. congruence.
  - intros [_ (k' & _ & E)]. simpl in E. rewrite Hk, <- !app_assoc in E.
    apply app_inv_head in E. simpl in E. congruence.
Qed.

Lemma lookup_node_parts (f : gmap path node) (root : string) (parts : list string)
    (s : string) :
  lookup_node f (root, parts ++ [s]) = f !! (root, parts ++ [s]).
Proof. unfold lookup_node. simpl. by destruct parts. Qed.

Lemma run_mkdir_fresh (p : path) (s : string) (w : World) :
  lookup_node (files w) p = Some Dir ->
  files w !! (p.1, p.2 ++ [s]) = None ->
  mkdir (p.1, p.2 ++ [s]) w
  = (Ok tt, set_files (<[(p.1, p.2 ++ [s]) := Dir]> (files w)) w).
Proof.
  intros Hp Hfree. unfold mkdir, check_parent.
  rewrite run_bind. unfold node_at at 1. rewrite lookup_node_parts, Hfree.
  rewrite run_bind, run_bind. unfold node_at. rewrite parent_snoc.
  destruct p as [root parts]. simpl in *. by rewrite Hp.
Qed.

Lemma run_mkdir_taken (p : path) (n : node) (w : World) :
  lookup_node (files w) p = Some n -> mkdir p w = (Raise (FileExistsError p), w).
Proof. intros H. unfold mkdir. rewrite run_bind. unfold node_at. by rewrite H. Qed.

(** ** A name that is taken *)

(** C9, as the code has it.  When the directory the sanitized title names
    exists in the output directory, the writer turns to a second name beside
    it: the first with 8 characters of a newly drawn identifier appended.
    When that name is free, the writer creates the directory of that name,
    and nothing at or under the existing directory changes, whether the rest
    of the writing succeeds or fails.  When that name is taken too, the
    writer raises [FileExistsError] for it, and the file system stays as it
    was. *)
Theorem write_textbundle_collision (title : string) (text : list string)
    (meta : TBundle) (assets : list path) (outdir : path) (w : World) :
  let existing := joinpath outdir (sanitized title) in
  let suffix := Py.take 8 (str_uuid (uuid_of_random (urandom w (drawn w)))) in
  let fresh := joinpath outdir (sanitized title +:+ suffix) in
  lookup_node (files w) outdir = Some Dir ->
  lookup_node (files w) existing = Some Dir ->
  Forall wf_path assets ->
  String.length suffix = 8 /\
  parent existing = outdir /\ parent fresh = outdir /\
  name fresh = name existing +:+ suffix /\
  fresh <> existing /\
  (lookup_node (files w) fresh = None ->
   exists r w',
     write_textbundle title text meta assets outdir w = (r, w') /\
     files w' !! fresh = Some Dir /\
     (forall q, under existing q -> files w' !! q = files w !! q)) /\
  (forall n, lookup_node (files w) fresh = Some n ->
   write_textbundle title text meta assets outdir w
   = (Raise (FileExistsError fresh), one_more_draw w)
   /\ files (one_more_draw w) = files w).
Proof.
  intros existing suffix fresh Hout Hex Hwf.
  assert (Hlen : String.length suffix = 8) by apply suffix_length.
  assert (E1 : existing = (outdir.1, outdir.2 ++ [sanitized title])).
  { apply joinpath_plain; [apply sanitized_no_slash |].
    pose proof (sanitized_length title). lia. }
  assert (E2 : fresh = (outdir.1, outdir.2 ++ [sanitized title +:+ suffix])).
  { apply joinpath_plain.
    - unfold no_slash. rewrite char_in_append, sanitized_no_slash.
      apply suffix_no_slash.
    - rewrite length_append. lia. }
  assert (Hne : sanitized title <> sanitized title +:+ suffix).
  { intros E. symmetry in E. revert E. apply append_neq.
    intros E. rewrite E in Hlen. discriminate. }
  set (w1 := one_more_draw w).
  set (fill :=
    (match assets with
     | [] => mret tt
     | _ =>
         let asset_dir := joinpath fresh TB_ASSET_DIR in
         mkdir asset_dir;;
         for_each assets (fun src_file =>
           let dst_file := joinpath asset_dir (name src_file) in
           shutil_copy src_file dst_file)
     end;;
     write_file (joinpath fresh TB_METADATA_FILE) (JsonDumps meta);;
     write_file (joinpath fresh TB_CONTENT_FILE) (Written (Py.join Py.nl text)))
    : M unit).
  assert (Hstart : write_textbundle title text meta assets outdir w
            = match mkdir fresh w1 with
              | (Ok _, w2) => fill w2
              | (Raise e, w2) => (Raise e, w2)
              end).
  { unfold write_textbundle. fold existing.
    rewrite run_bind, run_path_exists, Hex.
    rewrite run_bind, run_bind. unfold uuid4 at 1. fold w1.
    rewrite run_ret. fold suffix. fold fresh.
    rewrite run_bind. by destruct (mkdir fresh w1) as [[[]|e] w2]. }
  split; [exact Hlen |].
  split; [rewrite E1, parent_snoc; by destruct outdir |].
  split; [rewrite E2, parent_snoc; by destruct outdir |].
  split; [by rewrite E1, E2, !name_snoc |].
  split; [rewrite E1, E2; intros E; simplify_eq; by apply app_inj_tail in E as [_ ?] |].
  split.
  - intros Hfree.
    set (w2 := set_files (<[fresh := Dir]> (files w1)) w1).
    assert (Hmk : mkdir fresh w1 = (Ok tt, w2)).
    { unfold w2. rewrite E2. apply run_mkdir_fresh; [exact Hout |].
      rewrite <- lookup_node_parts, <- E2. exact Hfree. }
    rewrite Hmk in Hstart.
    assert (Hframe : forall q, ~ below fresh q ->
              files (fill w2).2 !! q = files w2 !! q)
      by exact (touches_fill fresh text meta assets Hwf w2).
    destruct (fill w2) as [r w'] eqn:Hfill. simpl in Hframe.
    exists r, w'. split; [exact Hstart |]. split.
    + rewrite (Hframe fresh (not_below_self fresh)). simpl. apply lookup_insert_eq.
    + intros q Hq. rewrite E1 in Hq.
      destruct (under_sibling outdir _ _ q Hne Hq) as [Hq1 Hq2].
      rewrite <- E2 in Hq1, Hq2.
      rewrite (Hframe q Hq2). simpl. by apply lookup_insert_ne.
  - intros n Htaken. split; [| reflexivity].
    rewrite Hstart. by rewrite (run_mkdir_taken fresh n w1 Htaken).
Qed.

Lemma write_textbundle_collision_witness :
  exists r w',
    write_textbundle "Trip" ["# Trip"; "Packing list"; ""] example_meta [] out_dir
      collision_host = (r, w')
    /\ files w' !! ("", ["out"; "Trip.textbundle3b1f0c9e"]) = Some Dir
    /\ files w' !! ("", ["out"; "Trip.textbundle"; "text.txt"])
       = Some (File (Written "old")).
Proof.
  destruct (write_textbundle_collision "Trip" ["# Trip"; "Packing list"; ""]
              example_meta [] out_dir collision_host)
    as (_ & _ & _ & _ & _ & Hfree & _);
    [reflexivity | reflexivity | constructor |].
  destruct (Hfree eq_refl) as (r & w' & H & Hdir & Hkept).
  exists r, w'. split; [exact H |]. split; [exact Hdir |].
  refine (eq_trans (Hkept ("", ["out"; "Trip.textbundle"; "text.txt"]) _) _);
    [| reflexivity].
  split; [reflexivity |]. by exists ["text.txt"].
Defined.

(** C9, as the claim has it, fails: in [crowded_host] both the name and the
    name with the suffix are taken; the writer raises [FileExistsError] and
    creates no directory at all. *)
Lemma second_collision_creates_nothing :
  lookup_node (files crowded_host) (joinpath out_dir (sanitized "Trip")) = Some Dir
  /\ (write_textbundle "Trip" ["# Trip"; "Packing list"; ""] example_meta [] out_dir
        crowded_host).1
     = Raise (FileExistsError ("", ["out"; "Trip.textbundle3b1f0c9e"]))
  /\ files (write_textbundle "Trip" ["# Trip"; "Packing list"; ""] example_meta []
              out_dir crowded_host).2
     = files crowded_host.
Proof. split; [reflexivity |]. split; reflexivity. Qed.

(** ** Attachments in subdirectories *)

(** C8 at the input where the code departs from it.  The attachment of
    [holiday_note] is [media/photo.jpg]: the resolver's marker is
    [[assets/media/photo.jpg]], the writer stores the copy as
    [assets/photo.jpg], and nothing exists at the path the marker gives. *)
Theorem nested_attachment_embed_dangles :
  let r := process_note holiday_note "2020-09-14T08:00:00+00:00" keep_dir out_dir
             false fresh_host in
  let package := ("", ["out"; "Holiday.textbundle"]) in
  (convert_note_attachments holiday_note keep_dir fresh_host).1
  = Ok ([("", ["Takeout"; "Keep"; "media"; "photo.jpg"])], ["[assets/media/photo.jpg]"])
  /\ r.1 = Ok tt
  /\ files r.2 !! joinpath package "text.txt"
     = Some (File (Written ("# Holiday" +:+ Py.nl +:+ "At the beach" +:+ Py.nl
                            +:+ Py.nl +:+ "[assets/media/photo.jpg]")))
  /\ files r.2 !! joinpath package "assets/photo.jpg" = Some (File (Written "JFIF"))
  /\ files r.2 !! joinpath package "assets/media/photo.jpg" = None.
Proof. repeat split; reflexivity. Qed.

(** * Further properties *)

(** ** Writing a whole package *)

Lemma joinpath_child (p : path) (s : string) :
  plain_name s -> joinpath p s = child p s.
Proof.
  intros (Hs & H1 & H2). rewrite (joinpath_no_slash _ _ Hs).
  by rewrite filter_cons_True.
Qed.

Lemma lookup_node_child (f : gmap path node) (p : path) (s : string) :
  lookup_node f (child p s) = f !! child p s.
Proof. apply lookup_node_parts. Qed.

Lemma child_inj (p : path) (a b : string) : child p a = child p b -> a = b.
Proof.
  unfold child. intros E. injection E as E. by apply app_inj_tail in E as [_ ?].
Qed.

Lemma child_below (p : path) (s : string) : below p (child p s).
Proof. split; [done |]. by exists [s]. Qed.

Lemma child_neq (p : path) (s : string) : child p s <> p.
Proof. intros E. apply (not_below_self p). rewrite <- E at 2. apply child_below. Qed.

Lemma lookup_node_insert_ne (f : gmap path node) (p q : path) (n : node) :
  p <> q -> lookup_node (<[p := n]> f) q = lookup_node f q.
Proof.
  intros H. unfold lookup_node. destruct q.2; [done |]. by apply lookup_insert_ne.
Qed.

Lemma file_in_lookup (w : World) (p : path) (c : contents) :
  lookup_node (files w) p = Some (File c) -> files w !! p = Some (File c).
Proof. unfold lookup_node. by destruct p.2. Qed.

(** Writing a file where there is none or a file, below a directory. *)
Lemma run_write_file (p : path) (s : string) (c : contents) (w : World) :
  lookup_node (files w) p = Some Dir ->
  files w !! child p s <> Some Dir ->
  write_file (child p s) c w
  = (Ok tt, set_files (<[child p s := File c]> (files w)) w).
Proof.
  intros Hp Hs. unfold write_file. rewrite run_bind. unfold node_at at 1.
  rewrite lookup_node_child.
  destruct (files w !! child p s) as [[|c']|] eqn:E; [done | done |].
  unfold check_parent. rewrite !run_bind. unfold node_at.
  unfold child at 1. rewrite parent_snoc.
  destruct p as [root parts]. simpl in *. by rewrite Hp.
Qed.

(** Copying a file to a name in a directory where no directory has that name. *)
Lemma run_shutil_copy (src d : path) (c : contents) (w : World) :
  lookup_node (files w) d = Some Dir ->
  lookup_node (files w) src = Some (File c) ->
  plain_name (name src) ->
  ~ below d src ->
  files w !! child d (name src) <> Some Dir ->
  shutil_copy src (joinpath d (name src)) w
  = (Ok tt, set_files (<[child d (name src) := File c]> (files w)) w).
Proof.
  intros Hd Hsrc Hname Hnot Hdst. rewrite (joinpath_child _ _ Hname).
  unfold shutil_copy. rewrite run_bind. unfold node_at at 1.
  rewrite lookup_node_child.
  assert (E : match files w !! child d (name src) with
              | Some Dir => joinpath (child d (name src)) (name src)
              | _ => child d (name src)
              end = child d (name src)).
  { by destruct (files w !! child d (name src)) as [[|c']|]. }
  rewrite E. rewrite run_bind. unfold node_at at 1. rewrite Hsrc.
  case_decide as Heq.
  - exfalso. apply Hnot. rewrite Heq. apply child_below.
  - by apply run_write_file.
Qed.

Lemma run_copy_assets (d : path) (assets : list path) (w : World) :
  lookup_node (files w) d = Some Dir ->
  (forall s, files w !! child d s <> Some Dir) ->
  Forall (fun src => file_in w src /\ plain_name (name src) /\ ~ below d src) assets ->
  NoDup (name <$> assets) ->
  exists w',
    for_each assets (fun src_file =>
      let dst_file := joinpath d (name src_file) in
      shutil_copy src_file dst_file) w = (Ok tt, w')
    /\ drawn w' = drawn w /\ urandom w' = urandom w /\ local_iso w' = local_iso w
    /\ (forall q, (forall src, src ∈ assets -> q <> child d (name src)) ->
                  files w' !! q = files w !! q)
    /\ (forall src c, src ∈ assets -> lookup_node (files w) src = Some (File c) ->
                      files w' !! child d (name src) = Some (File c)).
Proof.
  intros Hd Hsub Hassets Hdup. revert w Hd Hsub Hassets.
  induction assets as [|src rest IH]; intros w Hd Hsub Hassets.
  - exists w. repeat split; try done. intros src c Hin. by apply elem_of_nil in Hin.
  - apply Forall_cons in Hassets as [([c Hc] & Hname & Hnot) Hrest].
    rewrite fmap_cons in Hdup. apply NoDup_cons in Hdup as [Hfresh Hdup].
    set (dst := child d (name src)).
    set (w1 := set_files (<[dst := File c]> (files w)) w).
    assert (Hcopy : shutil_copy src (joinpath d (name src)) w = (Ok tt, w1))
      by (by apply run_shutil_copy).
    assert (Hkeep : forall p, ~ below d p -> lookup_node (files w1) p = lookup_node (files w) p).
    { intros p Hp. apply lookup_node_insert_ne. intros <-. apply Hp, child_below. }
    destruct (IH Hdup w1) as (w' & Hrun & Hdrawn & Hrand & Hclock & Hframe & Hcopies).
    + rewrite Hkeep; [exact Hd | apply not_below_self].
    + intros s. simpl. destruct (decide (dst = child d s)) as [<- | Hne].
      * by rewrite lookup_insert_eq.
      * rewrite lookup_insert_ne by done. apply Hsub.
    + eapply Forall_impl; [exact Hrest |].
      intros src' ([c' Hc'] & Hname' & Hnot'). split; [| done].
      exists c'. by rewrite Hkeep.
    + exists w'. split; [| split; [| split; [| split; [| split]]]]; try done.
      * simpl. rewrite run_bind, Hcopy. exact Hrun.
      * intros q Hq. rewrite Hframe.
        -- simpl. apply lookup_insert_ne. intros <-. apply (Hq src); [apply elem_of_cons; by left | done].
        -- intros src' Hin. apply Hq, elem_of_cons. by right.
      * intros src' c' Hin Hc'. apply elem_of_cons in Hin as [-> | Hin].
        -- rewrite Hframe.
           ++ simpl. fold dst. rewrite lookup_insert_eq. congruence.
           ++ intros src' Hin E. apply child_inj in E. apply Hfresh.
              rewrite E. by apply list_elem_of_fmap_2.
        -- apply Hcopies; [done |]. rewrite Hkeep; [done |].
           rewrite Forall_forall in Hrest. by destruct (Hrest src' Hin) as (_ & _ & ?).
Qed.

Lemma under_iff (p q : path) : under p q <-> q = p \/ below p q.
Proof.
  split.
  - intros [H1 [k Hk]]. destruct k as [|x k].
    + left. rewrite app_nil_r in Hk. destruct p, q. simpl in *. congruence.
    + right. split; [done |]. by exists (x :: k).
  - intros [-> | [H1 (k & _ & Hk)]]; (split; [done |]).
    + exists []. by rewrite app_nil_r.
    + by exists k.
Qed.

Lemma below_trans (p q r : path) : below p q -> below q r -> below p r.
Proof.
  intros [H1 (k & Hk & E)] [H1' (k' & Hk' & E')]. split; [congruence |].
  exists (k ++ k'). split; [by destruct k |]. by rewrite E', E, <- app_assoc.
Qed.

Lemma child_length (p : path) (s : string) : length (child p s).2 = S (length p.2).
Proof. unfold child. simpl. rewrite length_app. simpl. lia. Qed.

Lemma below_length (p q : path) : below p q -> length p.2 < length q.2.
Proof.
  intros [_ (k & Hk & E)]. rewrite E, length_app. destruct k; [done | simpl; lia].
Qed.

Lemma plain_sanitized (title : string) : plain_name (sanitized title).
Proof.
  split; [apply sanitized_no_slash |].
  pose proof (sanitized_length title) as H.
  split; intros E; rewrite E in H; simpl in H; lia.
Qed.

(** The part of [write_textbundle] that copies the assets. *)
Lemma run_asset_block (package : path) (assets : list path) (w : World) :
  lookup_node (files w) package = Some Dir ->
  (forall q, below package q -> files w !! q = None) ->
  Forall (fun src => file_in w src /\ plain_name (name src)) assets ->
  NoDup (name <$> assets) ->
  exists w',
    match assets with
    | [] => mret tt
    | _ =>
        let asset_dir := joinpath package TB_ASSET_DIR in
        mkdir asset_dir;;
        for_each assets (fun src_file =>
          let dst_file := joinpath asset_dir (name src_file) in
          shutil_copy src_file dst_file)
    end w = (Ok tt, w')
    /\ drawn w' = drawn w
    /\ files w' !! child package "assets"
       = match assets with [] => None | _ => Some Dir end
    /\ (forall src c, src ∈ assets -> lookup_node (files w) src = Some (File c) ->
          files w' !! child (child package "assets") (name src) = Some (File c))
    /\ (forall q, q <> child package "assets" -> ~ below (child package "assets") q ->
          files w' !! q = files w !! q).
Proof.
  intros Hpkg Hempty Hassets Hdup.
  set (asset_dir := child package "assets").
  assert (Hfree : files w !! asset_dir = None) by apply Hempty, child_below.
  destruct assets as [|a rest].
  { exists w. repeat split; try done. intros src c Hin. by apply elem_of_nil in Hin. }
  set (assets := a :: rest) in *.
  assert (Ejoin : joinpath package TB_ASSET_DIR = asset_dir).
  { apply joinpath_child. repeat split; done. }
  set (w1 := set_files (<[asset_dir := Dir]> (files w)) w).
  assert (Hmk : mkdir asset_dir w = (Ok tt, w1)) by (by apply run_mkdir_fresh).
  assert (Hkeep : forall p, p <> asset_dir ->
            lookup_node (files w1) p = lookup_node (files w) p).
  { intros p Hp. by apply lookup_node_insert_ne. }
  destruct (run_copy_assets asset_dir assets w1)
    as (w' & Hrun & Hdrawn & _ & _ & Hframe & Hcopies).
  - unfold asset_dir at 1. rewrite lookup_node_child. simpl. apply lookup_insert_eq.
  - intros s. simpl. rewrite lookup_insert_ne by apply not_eq_sym, child_neq.
    rewrite Hempty; [done |].
    eapply below_trans; apply child_below.
  - eapply Forall_impl; [exact Hassets |].
    intros src ([c Hc] & Hname). 
    assert (Hout : ~ below package src).
    { intros Hb. apply file_in_lookup in Hc. rewrite (Hempty _ Hb) in Hc. done. }
    split; [| split; [done |]].
    + exists c. rewrite Hkeep; [done |]. intros ->. apply Hout, child_below.
    + intros Hb. apply Hout. eapply below_trans; [apply child_below | exact Hb].
  - exact Hdup.
  - exists w'. split; [| split; [done | split; [| split]]].
    + rewrite Ejoin. rewrite run_bind, Hmk. exact Hrun.
    + rewrite Hframe; [simpl; apply lookup_insert_eq |].
      intros src _. apply not_eq_sym, child_neq.
    + intros src c Hin Hc. apply Hcopies; [done |].
      rewrite Hkeep; [done |]. intros ->.
      apply file_in_lookup in Hc. fold asset_dir in Hfree. congruence.
    + intros q Hq1 Hq2. rewrite Hframe.
      * simpl. by apply lookup_insert_ne.
      * intros src _ ->. apply Hq2, child_below.
Qed.

(** Writing a package under a name that is free. *)
Lemma run_write_textbundle_fresh (title : string) (text : list string) (meta : TBundle)
    (assets : list path) (outdir : path) (w : World) :
  let package := child outdir (sanitized title) in
  lookup_node (files w) outdir = Some Dir ->
  (forall q, under package q -> files w !! q = None) ->
  Forall (fun src => file_in w src /\ plain_name (name src)) assets ->
  NoDup (name <$> assets) ->
  exists w',
    write_textbundle title text meta assets outdir w = (Ok tt, w')
    /\ drawn w' = drawn w
    /\ files w' !! package = Some Dir
    /\ files w' !! child package "info.json" = Some (File (JsonDumps meta))
    /\ files w' !! child package "text.txt"
       = Some (File (Written (Py.join Py.nl text)))
    /\ files w' !! child package "assets"
       = match assets with [] => None | _ => Some Dir end
    /\ (forall src c, src ∈ assets -> lookup_node (files w) src = Some (File c) ->
          files w' !! child (child package "assets") (name src) = Some (File c))
    /\ (forall q, ~ under package q -> files w' !! q = files w !! q).
Proof.
  intros package Hout Hempty Hassets Hdup.
  assert (Ejoin : joinpath outdir (sanitized title) = package)
    by apply joinpath_child, plain_sanitized.
  assert (Hfree : files w !! package = None) by (apply Hempty, under_iff; by left).
  set (w1 := set_files (<[package := Dir]> (files w)) w).
  assert (Hmk : mkdir package w = (Ok tt, w1)) by (by apply run_mkdir_fresh).
  assert (Hkeep1 : forall p, p <> package ->
            lookup_node (files w1) p = lookup_node (files w) p).
  { intros p Hp. by apply lookup_node_insert_ne. }
  destruct (run_asset_block package assets w1)
    as (w2 & Hblock & Hdrawn2 & Hdir2 & Hcopies2 & Hframe2).
  { unfold package at 1. rewrite lookup_node_child. simpl. apply lookup_insert_eq. }
  { intros q Hq. simpl. rewrite lookup_insert_ne.
    - apply Hempty, under_iff. by right.
    - intros <-. by apply (not_below_self package). }
  { eapply Forall_impl; [exact Hassets |]. intros src ([c Hc] & Hname).
    split; [| done]. exists c. rewrite Hkeep1; [done |]. intros ->.
    apply file_in_lookup in Hc. congruence. }
  { exact Hdup. }
  assert (Hne : forall s, s <> "assets" ->
            child package s <> child package "assets"
            /\ ~ below (child package "assets") (child package s)).
  { intros s Hs. split.
    - intros E. by apply child_inj in E.
    - intros Hb. apply below_length in Hb. rewrite !child_length in Hb. lia. }
  assert (Hpkg2 : files w2 !! package = Some Dir).
  { rewrite Hframe2.
    - simpl. apply lookup_insert_eq.
    - apply not_eq_sym, child_neq.
    - intros Hb. apply below_length in Hb. rewrite child_length in Hb. lia. }
  set (info := child package "info.json").
  set (w3 := set_files (<[info := File (JsonDumps meta)]> (files w2)) w2).
  assert (Hinfo : write_file info (JsonDumps meta) w2 = (Ok tt, w3)).
  { apply run_write_file.
    - unfold package at 1. by rewrite lookup_node_child.
    - destruct (Hne "info.json") as [H1 H2]; [done |].
      rewrite Hframe2 by done. simpl. rewrite lookup_insert_ne by apply not_eq_sym, child_neq.
      rewrite Hempty; [done |]. apply under_iff. right. apply child_below. }
  set (txt := child package "text.txt").
  set (w4 := set_files (<[txt := File (Written (Py.join Py.nl text))]> (files w3)) w3).
  assert (Htxt : write_file txt (Written (Py.join Py.nl text)) w3 = (Ok tt, w4)).
  { apply run_write_file.
    - unfold package at 1. rewrite lookup_node_child. simpl.
      rewrite lookup_insert_ne by apply child_neq. exact Hpkg2.
    - simpl. rewrite lookup_insert_ne by (intros E; by apply child_inj in E).
      destruct (Hne "text.txt") as [H1 H2]; [done |].
      rewrite Hframe2 by done. simpl. rewrite lookup_insert_ne by apply not_eq_sym, child_neq.
      rewrite Hempty; [done |]. apply under_iff. right. apply child_below. }
  assert (Hlater : forall q, q <> info -> q <> txt -> files w4 !! q = files w2 !! q).
  { intros q H1 H2. simpl. by rewrite !lookup_insert_ne. }
  exists w4. split; [| split; [done | split; [| split; [| split; [| split; [| split]]]]]].
  - unfold write_textbundle. rewrite Ejoin.
    rewrite run_bind, run_path_exists.
    unfold package at 1. rewrite lookup_node_child. fold package. rewrite Hfree.
    rewrite run_bind, run_ret, run_bind, Hmk.
    cbv zeta in Hblock. rewrite run_bind, Hblock.
    assert (E1 : joinpath package TB_METADATA_FILE = info)
      by (apply joinpath_child; repeat split; done).
    assert (E2 : joinpath package TB_CONTENT_FILE = txt)
      by (apply joinpath_child; repeat split; done).
    rewrite E1, E2. rewrite run_bind, Hinfo. exact Htxt.
  - rewrite Hlater; [done | apply not_eq_sym, child_neq ..].
  - simpl. rewrite lookup_insert_ne by (intros E; by apply child_inj in E).
    apply lookup_insert_eq.
  - simpl. apply lookup_insert_eq.
  - rewrite Hlater; [done | intros E; by apply child_inj in E ..].
  - intros src c Hin Hc.
    assert (Hdeep : forall s, child (child package "assets") (name src) <> child package s).
    { intros s E. apply (f_equal (fun p => length p.2)) in E.
      rewrite !child_length in E. lia. }
    rewrite Hlater by apply Hdeep. apply Hcopies2; [done |].
    rewrite Hkeep1; [done |]. intros ->. apply file_in_lookup in Hc. congruence.
  - intros q Hq.
    assert (Hq' : q <> package /\ ~ below package q).
    { split; intros H; apply Hq, under_iff; [by left | by right]. }
    destruct Hq' as [Hq1 Hq2].
    assert (Hnc : forall s, q <> child package s).
    { intros s ->. apply Hq2, child_below. }
    rewrite Hlater by apply Hnc. rewrite Hframe2.
    + simpl. by apply lookup_insert_ne.
    + apply Hnc.
    + intros Hb. apply Hq2. eapply below_trans; [apply child_below | exact Hb].
Qed.

(** Nothing of the export or the output directory lies at or under a package
    directory of the output directory. *)
Lemma export_has_no_package (s : string) (q : path) :
  under (child out_dir s) q -> files fresh_host !! q = None.
Proof.
  intros [_ [k Hk]]. unfold fresh_host, host, export_files. cbn [files].
  repeat (rewrite lookup_insert_ne; [| intros <-; simpl in Hk; discriminate Hk]).
  apply lookup_empty.
Qed.

(** X1. Under a name that is free in an existing output directory, with
    assets that are files of distinct plain names, the writer succeeds without
    drawing an identifier: it creates the package directory, [info.json] with
    the metadata and [text.txt] with the blocks joined by line feeds, an
    [assets] directory exactly when there are assets, and in it one copy per
    asset under the asset's name, holding what the source holds; nothing
    outside the package changes. *)
Theorem write_textbundle_fresh (title : string) (text : list string) (meta : TBundle)
    (assets : list path) (outdir : path) (w : World) :
  let package := child outdir (sanitized title) in
  lookup_node (files w) outdir = Some Dir ->
  (forall q, under package q -> files w !! q = None) ->
  Forall (fun src => file_in w src /\ plain_name (name src)) assets ->
  NoDup (name <$> assets) ->
  exists w',
    write_textbundle title text meta assets outdir w = (Ok tt, w')
    /\ drawn w' = drawn w
    /\ files w' !! package = Some Dir
    /\ files w' !! child package "info.json" = Some (File (JsonDumps meta))
    /\ files w' !! child package "text.txt"
       = Some (File (Written (Py.join Py.nl text)))
    /\ files w' !! child package "assets"
       = match assets with [] => None | _ => Some Dir end
    /\ (forall src c, src ∈ assets -> lookup_node (files w) src = Some (File c) ->
          files w' !! child (child package "assets") (name src) = Some (File c))
    /\ (forall q, ~ under package q -> files w' !! q = files w !! q).
Proof. exact (run_write_textbundle_fresh title text meta assets outdir w). Qed.

Lemma write_textbundle_fresh_witness :
  exists w',
    write_textbundle "Receipt" ["# Receipt"; "paid"] example_meta
      [("", ["Takeout"; "Keep"; "page1.png"])] out_dir fresh_host = (Ok tt, w')
    /\ files w' !! ("", ["out"; "Receipt.textbundle"; "assets"; "page1.png"])
       = Some (File (Written "PNG")).
Proof.
  destruct (write_textbundle_fresh "Receipt" ["# Receipt"; "paid"] example_meta
              [("", ["Takeout"; "Keep"; "page1.png"])] out_dir fresh_host)
    as (w' & H & _ & _ & _ & _ & _ & Hcopy & _).
  - reflexivity.
  - apply export_has_no_package.
  - repeat constructor; try done. by exists (Written "PNG").
  - repeat constructor. intros H. by apply elem_of_nil in H.
  - exists w'. split; [exact H |].
    apply (Hcopy ("", ["Takeout"; "Keep"; "page1.png"]) (Written "PNG"));
      [apply elem_of_cons; by left | reflexivity].
Defined.

Lemma name_child (p : path) (s : string) : name (child p s) = s.
Proof. apply name_snoc. Qed.

(** The path an embed marker for a plain file name spells out. *)
Lemma joinpath_assets (p : path) (s : string) :
  plain_name s -> joinpath p ("assets/" +:+ s) = child (child p "assets") s.
Proof.
  intros (Hs & H1 & H2). unfold joinpath, parse_path.
  change ("assets/" +:+ s) with ("assets" +:+ String "/" s).
  rewrite split_cons by reflexivity. rewrite (split_none _ _ Hs).
  change (Py.leading "/" ("assets" +:+ String "/" s)) with 0.
  simpl. rewrite filter_cons_True by done. rewrite filter_cons_True by done.
  unfold child. simpl. by rewrite <- app_assoc.
Qed.

(** X2. A note whose timestamp converts, whose text converts and whose
    attachments are plain file names for which [is_file] holds in the source
    directory is written whole, when the package name is free: [text.txt]
    holds the blocks and then one marker per attachment, joined by line
    feeds; [info.json] holds the metadata with the one identifier drawn and
    both timestamps; the file each marker [[assets/<name>]] points at exists
    in the package and holds what the source file holds; nothing outside the
    package changes. *)
Theorem process_note_package (note : Note) (created_ts : string)
    (srcpath outdir : path) (ignore_colors : bool) (w : World)
    (mod_ts derived : string) (text : list string) :
  let atts := default [] (attachments note) in
  let package := child outdir (sanitized derived) in
  modification_timestamp w (userEditedTimestampUsec note) = Ok mod_ts ->
  convert_note_text note ignore_colors = Ok (derived, text) ->
  lookup_node (files w) outdir = Some Dir ->
  (forall q, under package q -> files w !! q = None) ->
  Forall (fun att => plain_name (filePath att)
                     /\ is_file_at w (joinpath srcpath (filePath att)) = Ok true) atts ->
  NoDup (filePath <$> atts) ->
  exists w' meta,
    process_note note created_ts srcpath outdir ignore_colors w = (Ok tt, w')
    /\ drawn w' = S (drawn w)
    /\ files w' !! child package "text.txt"
       = Some (File (Written
            (Py.join Py.nl
               (text ++ map (fun att => "[assets/" +:+ filePath att +:+ "]") atts))))
    /\ files w' !! child package "info.json" = Some (File (JsonDumps meta))
    /\ uniqueIdentifier (net_shinyfrog_bear meta)
       = str_uuid (uuid_of_random (urandom w (drawn w)))
    /\ creationDate (net_shinyfrog_bear meta) = created_ts
    /\ modificationDate (net_shinyfrog_bear meta) = mod_ts
    /\ (forall att c, att ∈ atts ->
          lookup_node (files w) (joinpath srcpath (filePath att)) = Some (File c) ->
          files w' !! joinpath package ("assets/" +:+ filePath att) = Some (File c))
    /\ (forall q, ~ under package q -> files w' !! q = files w !! q).
Proof.
  intros atts package Hts Htext Hout Hempty Hatts Hdup.
  set (w1 := one_more_draw w).
  set (assets := map (fun att => joinpath srcpath (filePath att)) atts).
  set (embeds := map (fun att => "[assets/" +:+ filePath att +:+ "]") atts).
  assert (Hres : convert_note_attachments note srcpath w1 = (Ok (assets, embeds), w1)).
  { unfold convert_note_attachments, assets, embeds, atts.
    destruct (attachments note) as [l|]; [| reflexivity].
    rewrite convert_each_attachment_ok; [reflexivity |].
    eapply Forall_impl; [exact Hatts |]. by intros att [_ ?]. }
  assert (Hjoin : forall att, att ∈ atts ->
            joinpath srcpath (filePath att) = child srcpath (filePath att)).
  { intros att Hin. rewrite Forall_forall in Hatts.
    destruct (Hatts att Hin) as [Hp _]. by apply joinpath_child. }
  destruct (run_write_textbundle_fresh derived (text ++ embeds)
              (tbundle_meta created_ts mod_ts (isPinned note) (isArchived note)
                 (isTrashed note) (uuid_of_random (urandom w (drawn w))))
              assets outdir w1)
    as (w' & Hrun & Hdrawn & _ & Hinfo & Htxt & _ & Hcopies & Hframe).
  - exact Hout.
  - exact Hempty.
  - unfold assets. apply Forall_map. rewrite Forall_forall in Hatts |- *.
    intros att Hin. destruct (Hatts att Hin) as [Hp Hf].
    apply is_file_at_true in Hf as [_ Hf].
    split; [exact Hf |]. simpl. by rewrite (Hjoin att Hin), name_child.
  - unfold assets.
    assert (E : name <$> map (fun att => joinpath srcpath (filePath att)) atts
                = filePath <$> atts).
    { clear -Hjoin. induction atts as [|att l IH]; [reflexivity |]. simpl.
      rewrite (Hjoin att) by (apply elem_of_cons; by left). rewrite name_child.
      f_equal. apply IH. intros a Ha. apply Hjoin, elem_of_cons. by right. }
    by rewrite E.
  - eexists w', _.
    split.
    { unfold process_note. rewrite run_bind, run_convert_metadata, Hts. fold w1.
      rewrite run_bind. unfold lift. rewrite Htext.
      rewrite run_bind, Hres. exact Hrun. }
    split; [exact Hdrawn |]. split; [exact Htxt |]. split; [exact Hinfo |].
    split; [reflexivity |]. split; [reflexivity |]. split; [reflexivity |].
    split; [| exact Hframe].
    intros att c Hin Hc. rewrite Forall_forall in Hatts.
    destruct (Hatts att Hin) as [Hp _].
    rewrite (joinpath_assets _ _ Hp).
    rewrite <- (name_child srcpath (filePath att)), <- (Hjoin att Hin).
    apply Hcopies; [| exact Hc].
    unfold assets. apply list_elem_of_In.
    apply (in_map (fun att => joinpath srcpath (filePath att))).
    by apply list_elem_of_In.
Qed.

Lemma process_note_package_witness :
  exists w',
    process_note receipt_note "2020-09-14T08:00:00+00:00" keep_dir out_dir false
      fresh_host = (Ok tt, w')
    /\ files w' !! ("", ["out"; "Receipt.textbundle"; "text.txt"])
       = Some (File (Written ("# Receipt" +:+ Py.nl +:+ "paid" +:+ Py.nl +:+ Py.nl
                              +:+ "#GREEN" +:+ Py.nl +:+ "[assets/page1.png]")))
    /\ files w' !! ("", ["out"; "Receipt.textbundle"; "assets"; "page1.png"])
       = Some (File (Written "PNG")).
Proof.
  destruct (process_note_package receipt_note "2020-09-14T08:00:00+00:00" keep_dir
              out_dir false fresh_host "2020-09-13T12:26:40+00:00"
              "Receipt" ["# Receipt"; "paid"; ""; "#GREEN"])
    as (w' & meta & H & _ & Htxt & _ & _ & _ & _ & Hcopy & _).
  - reflexivity.
  - reflexivity.
  - reflexivity.
  - apply export_has_no_package.
  - repeat constructor; done.
  - repeat constructor. intros H. by apply elem_of_nil in H.
  - exists w'. split; [exact H |]. split; [exact Htxt |].
    apply (Hcopy {| filePath := "page1.png" |} (Written "PNG"));
      [apply elem_of_cons; by left | reflexivity].
Defined.

Lemma all_chars_filter (ok : ascii -> bool) (s : string) :
  all_chars ok (Py.filter_chars ok s) = true.
Proof.
  induction s as [|c s IH]; simpl; [reflexivity |].
  destruct (ok c) eqn:E; [| exact IH]. simpl. by rewrite E.
Qed.

Lemma all_chars_take (ok : ascii -> bool) (n : nat) (s : string) :
  all_chars ok s = true -> all_chars ok (Py.take n s) = true.
Proof.
  revert s. induction n as [|n IH]; intros [|c s]; simpl; try reflexivity.
  intros H. apply andb_true_iff in H as [-> H]. by apply IH.
Qed.

Lemma filter_chars_all (ok : ascii -> bool) (s : string) :
  all_chars ok s = true -> Py.filter_chars ok s = s.
Proof.
  induction s as [|c s IH]; simpl; [reflexivity |].
  intros H. apply andb_true_iff in H as [-> H]. by rewrite IH.
Qed.

Lemma take_all (n : nat) (s : string) : String.length s <= n -> Py.take n s = s.
Proof.
  revert s. induction n as [|n IH]; intros [|c s]; simpl; try reflexivity; try lia.
  intros H. rewrite IH by lia. reflexivity.
Qed.

(** ** Names, colours and errors *)

(** X3. The directory name made from a title is a stem followed by
    [.textbundle]; the stem has at most 50 characters, all of them
    alphanumeric or one of [._- ], and it is the title itself when the title
    is already of that form. *)
Theorem sanitized_stem (title : string) :
  exists stem,
    sanitized title = stem +:+ ".textbundle"
    /\ String.length stem <= 50
    /\ all_chars title_char stem = true
    /\ (all_chars title_char title = true -> String.length title <= 50 ->
        stem = title).
Proof.
  exists (Py.take 50 (Py.filter_chars title_char title)).
  split; [reflexivity |]. split; [rewrite length_take; lia |].
  split; [apply all_chars_take, all_chars_filter |].
  intros Hall Hlen. rewrite filter_chars_all by exact Hall. by apply take_all.
Qed.

(** X4. Whatever the title, slashes and dots included, the package directory
    is an entry of the output directory itself, with and without the
    disambiguating suffix. *)
Theorem package_in_outdir (title : string) (outdir : path) :
  parent (joinpath outdir (sanitized title)) = outdir
  /\ name (joinpath outdir (sanitized title)) = sanitized title
  /\ forall u,
       parent (joinpath outdir (sanitized title +:+ Py.take 8 (str_uuid u))) = outdir.
Proof.
  rewrite (joinpath_child _ _ (plain_sanitized title)).
  split; [unfold child; rewrite parent_snoc; by destruct outdir |].
  split; [apply name_child |].
  intros u. rewrite joinpath_plain.
  - rewrite parent_snoc. by destruct outdir.
  - unfold no_slash. rewrite char_in_append, sanitized_no_slash. apply suffix_no_slash.
  - rewrite length_append. pose proof (sanitized_length title). lia.
Qed.

(** X5. A note with neither ["textContent"] nor ["listContent"] cannot be
    converted: reading the unbound [content] raises [UnboundLocalError],
    whatever the title and before any annotation is looked at. *)
Theorem convert_note_text_no_body (note : Note) (ignore_colors : bool) :
  textContent note = None ->
  listContent note = None ->
  convert_note_text note ignore_colors = Raise (UnboundLocalError "content").
Proof.
  intros H1 H2. unfold convert_note_text. rewrite H1, H2.
  by destruct (Py.truthy (title note)).
Qed.

Lemma convert_note_text_no_body_witness :
  convert_note_text bodiless_note false = Raise (UnboundLocalError "content").
Proof.
  apply (convert_note_text_no_body bodiless_note false); reflexivity.
Defined.

(** X6. Converting with colours gives what converting without them gives,
    with one more block at the end, [#] and the colour, unless the colour is
    ["DEFAULT"]; an error is the same either way. *)
Theorem convert_note_text_colors (note : Note) :
  convert_note_text note false
  = match convert_note_text note true with
    | Ok (derived, text) =>
        Ok (derived,
            text ++ (if String.eqb (color note) "DEFAULT" then []
                     else ["#" +:+ color note]))
    | Raise e => Raise e
    end.
Proof.
  unfold convert_note_text.
  destruct (match textContent note with
            | Some t => Some t
            | None => match listContent note with
                      | Some l => Some (convert_list l)
                      | None => None
                      end
            end) as [content|];
    destruct (Py.truthy (title note)); simpl; try reflexivity;
    destruct (convert_note_annotations note) as [anns|e]; simpl; try reflexivity;
    destruct (String.eqb (color note) "DEFAULT"); reflexivity.
Qed.

(** X7. [process_note] converts the metadata first.  When the timestamp
    does not convert, it ends with the error of the timestamp: no identifier
    has been drawn, and the world is as it was.  When the timestamp converts
    and the text conversion raises, it ends with the error of the text: one
    identifier has been drawn for the metadata, and the file system has not
    been touched. *)
Theorem process_note_text_error (note : Note) (created_ts : string)
    (srcpath outdir : path) (ignore_colors : bool) (w : World) :
  (forall e, modification_timestamp w (userEditedTimestampUsec note) = Raise e ->
   process_note note created_ts srcpath outdir ignore_colors w = (Raise e, w))
  /\ (forall mod_ts e,
      modification_timestamp w (userEditedTimestampUsec note) = Ok mod_ts ->
      convert_note_text note ignore_colors = Raise e ->
      process_note note created_ts srcpath outdir ignore_colors w
      = (Raise e, one_more_draw w)
      /\ drawn (one_more_draw w) = S (drawn w)
      /\ files (one_more_draw w) = files w).
Proof.
  split.
  - intros e Hts. unfold process_note. by rewrite run_bind, run_convert_metadata, Hts.
  - intros mod_ts e Hts H. split; [| done].
    unfold process_note. rewrite run_bind, run_convert_metadata, Hts.
    rewrite run_bind. unfold lift. by rewrite H.
Qed.

Lemma process_note_text_error_witness :
  process_note far_note "2020-09-14T08:00:00+00:00" keep_dir out_dir false fresh_host
  = (Raise (OverflowError "int too large to convert to float"), fresh_host)
  /\ (process_note trip_note "2020-09-14T08:00:00+00:00" keep_dir out_dir false
        fresh_host).1
     = Raise (ConversionError [Lit "Unknown annotation type: 'SHEETS'"])
  /\ files (process_note trip_note "2020-09-14T08:00:00+00:00" keep_dir out_dir false
              fresh_host).2 = files fresh_host.
Proof.
  split.
  - apply (proj1 (process_note_text_error far_note "2020-09-14T08:00:00+00:00"
                    keep_dir out_dir false fresh_host)).
    vm_compute. reflexivity.
  - destruct (proj2 (process_note_text_error trip_note "2020-09-14T08:00:00+00:00"
                       keep_dir out_dir false fresh_host)
                "2020-09-13T12:26:40+00:00"
                (ConversionError [Lit "Unknown annotation type: 'SHEETS'"])
                eq_refl eq_refl) as (H & _ & Hfiles).
    rewrite H. split; [reflexivity | exact Hfiles].
Defined.

Lemma convert_each_attachment_world (note : Note) (srcpath : path)
    (atts : list Attachment) (assets : list path) (embeds : list string) (w : World) :
  (convert_each_attachment note srcpath atts assets embeds w).2 = w
  /\ forall assets' embeds',
       (convert_each_attachment note srcpath atts assets embeds w).1
       = Ok (assets', embeds') ->
       Forall (fun att => is_file_at w (joinpath srcpath (filePath att)) = Ok true) atts.
Proof.
  revert assets embeds. induction atts as [|att atts IH]; intros assets embeds; simpl.
  - split; [reflexivity |]. intros _ _ _. constructor.
  - rewrite run_bind, run_is_file.
    destruct (is_file_at w (joinpath srcpath (filePath att))) as [[|]|e] eqn:E;
      simpl; try (split; [reflexivity | discriminate]).
    destruct (IH (assets ++ [joinpath srcpath (filePath att)])
                 (embeds ++ ["[" +:+ TB_ASSET_DIR +:+ "/" +:+ filePath att +:+ "]"]))
      as [H1 H2].
    split; [exact H1 |]. intros a' e' H. constructor; [exact E | by eapply H2].
Qed.

(** X8. The attachment resolver only reads: it leaves the world as it was,
    whether it returns or raises.  It returns exactly when [is_file] holds of
    [srcpath / filePath] for every attachment (an absolute [filePath] takes
    the place of [srcpath]), and then gives one path and one marker
    [[assets/<filePath>]] per attachment, in the order of the note. *)
Theorem convert_note_attachments_reads_only (note : Note) (srcpath : path) (w : World) :
  let atts := default [] (attachments note) in
  let r := convert_note_attachments note srcpath w in
  r.2 = w
  /\ (Forall (fun att => is_file_at w (joinpath srcpath (filePath att)) = Ok true) atts ->
      r.1 = Ok (map (fun att => joinpath srcpath (filePath att)) atts,
                map (fun att => "[assets/" +:+ filePath att +:+ "]") atts))
  /\ (forall assets embeds, r.1 = Ok (assets, embeds) ->
      Forall (fun att => is_file_at w (joinpath srcpath (filePath att)) = Ok true) atts
      /\ length assets = length atts /\ length embeds = length atts).
Proof.
  intros atts r. unfold r, atts, convert_note_attachments.
  destruct (attachments note) as [l|]; simpl.
  - destruct (convert_each_attachment_world note srcpath l [] [] w) as [H1 H2].
    split; [exact H1 |]. split.
    + intros H. by rewrite convert_each_attachment_ok.
    + intros assets embeds H. pose proof (H2 _ _ H) as Hall.
      split; [exact Hall |].
      rewrite convert_each_attachment_ok in H by exact Hall. simpl in H.
      injection H as <- <-. by rewrite !length_map.
  - split; [reflexivity |]. split; [reflexivity |].
    intros assets embeds H. injection H as <- <-. by repeat constructor.
Qed.

(** X9. When the output directory is not a directory, the writer raises
    [FileNotFoundError] (there is nothing at that path) or
    [NotADirectoryError] (there is a file) for the package directory, and
    writes nothing. *)
Theorem write_textbundle_no_outdir (title : string) (text : list string)
    (meta : TBundle) (assets : list path) (outdir : path) (w : World) :
  let package := child outdir (sanitized title) in
  lookup_node (files w) outdir <> Some Dir ->
  files w !! package = None ->
  write_textbundle title text meta assets outdir w
  = (Raise (match lookup_node (files w) outdir with
            | Some _ => NotADirectoryError package
            | None => FileNotFoundError package
            end), w).
Proof.
  intros package Hout Hfree. unfold write_textbundle.
  rewrite (joinpath_child _ _ (plain_sanitized title)). fold package.
  rewrite run_bind, run_path_exists. unfold package at 1.
  rewrite lookup_node_child. fold package. rewrite Hfree.
  rewrite run_bind, run_ret, run_bind. unfold mkdir.
  rewrite run_bind. unfold node_at at 1. unfold package at 1.
  rewrite lookup_node_child. fold package. rewrite Hfree.
  rewrite run_bind. unfold check_parent. rewrite run_bind. unfold node_at.
  unfold package at 1. unfold child at 1. rewrite parent_snoc.
  replace (outdir.1, outdir.2) with outdir by (by destruct outdir).
  by destruct (lookup_node (files w) outdir) as [[|c]|].
Qed.

Lemma write_textbundle_no_outdir_witness :
  write_textbundle "Trip" ["# Trip"] example_meta [] ("", ["nowhere"]) fresh_host
  = (Raise (FileNotFoundError ("", ["nowhere"; "Trip.textbundle"])), fresh_host).
Proof.
  apply (write_textbundle_no_outdir "Trip" ["# Trip"] example_meta []
           ("", ["nowhere"]) fresh_host).
  - intros H. discriminate H.
  - reflexivity.
Defined.

(** X10. Writing is not atomic.  When the first asset is missing, the writer
    raises [FileNotFoundError] for it after it has created the package
    directory and its [assets] directory: both stay behind, without
    [info.json] and without [text.txt]. *)
Theorem write_textbundle_partial (title : string) (text : list string)
    (meta : TBundle) (src : path) (rest : list path) (outdir : path) (w : World) :
  let package := child outdir (sanitized title) in
  lookup_node (files w) outdir = Some Dir ->
  (forall q, under package q -> files w !! q = None) ->
  lookup_node (files w) src = None ->
  ~ under package src ->
  exists w',
    write_textbundle title text meta (src :: rest) outdir w
    = (Raise (FileNotFoundError src), w')
    /\ files w' !! package = Some Dir
    /\ files w' !! child package "assets" = Some Dir
    /\ files w' !! child package "info.json" = None
    /\ files w' !! child package "text.txt" = None
    /\ (forall q, ~ under package q -> files w' !! q = files w !! q).
Proof.
  intros package Hout Hempty Hsrc Hnot.
  assert (Hfree : files w !! package = None) by (apply Hempty, under_iff; by left).
  set (assets_dir := child package "assets").
  set (w1 := set_files (<[package := Dir]> (files w)) w).
  set (w2 := set_files (<[assets_dir := Dir]> (files w1)) w1).
  assert (Hmk1 : mkdir package w = (Ok tt, w1)) by (by apply run_mkdir_fresh).
  assert (Hmk2 : mkdir assets_dir w1 = (Ok tt, w2)).
  { apply run_mkdir_fresh.
    - unfold package at 1. rewrite lookup_node_child. unfold w1. cbn [files set_files].
      apply lookup_insert_eq.
    - unfold w1. cbn [files set_files].
      rewrite lookup_insert_ne by apply not_eq_sym, child_neq.
      apply Hempty, under_iff. right. apply child_below. }
  assert (Hsrc2 : lookup_node (files w2) src = None).
  { unfold w2, w1. cbn [files set_files].
    rewrite !lookup_node_insert_ne; [exact Hsrc | |].
    - intros <-. apply Hnot, under_iff. by left.
    - intros <-. apply Hnot, under_iff. right. apply child_below. }
  exists w2. split; [| split; [| split; [| split; [| split]]]].
  - unfold write_textbundle.
    rewrite (joinpath_child _ _ (plain_sanitized title)). fold package.
    rewrite run_bind, run_path_exists. unfold package at 1.
    rewrite lookup_node_child. fold package. rewrite Hfree.
    rewrite run_bind, run_ret, run_bind, Hmk1.
    assert (Ejoin : joinpath package TB_ASSET_DIR = assets_dir)
      by (apply joinpath_child; repeat split; done).
    rewrite Ejoin. rewrite !run_bind, Hmk2. simpl for_each.
    rewrite run_bind. unfold shutil_copy. rewrite run_bind.
    unfold node_at at 1. rewrite run_bind. unfold node_at at 1.
    by rewrite Hsrc2.
  - unfold w2, w1. cbn [files set_files].
    rewrite lookup_insert_ne by apply child_neq. apply lookup_insert_eq.
  - unfold w2. cbn [files set_files]. apply lookup_insert_eq.
  - unfold w2, w1. cbn [files set_files].
    rewrite lookup_insert_ne by (intros E; by apply child_inj in E).
    rewrite lookup_insert_ne by apply not_eq_sym, child_neq.
    apply Hempty, under_iff. right. apply child_below.
  - unfold w2, w1. cbn [files set_files].
    rewrite lookup_insert_ne by (intros E; by apply child_inj in E).
    rewrite lookup_insert_ne by apply not_eq_sym, child_neq.
    apply Hempty, under_iff. right. apply child_below.
  - intros q Hq. unfold w2, w1. cbn [files set_files].
    rewrite !lookup_insert_ne; [done | |].
    + intros <-. apply Hq, under_iff. by left.
    + intros <-. apply Hq, under_iff. right. apply child_below.
Qed.

Lemma write_textbundle_partial_witness :
  exists w',
    write_textbundle "Trip" ["# Trip"] example_meta
      [("", ["Takeout"; "Keep"; "ticket.pdf"])] out_dir fresh_host
    = (Raise (FileNotFoundError ("", ["Takeout"; "Keep"; "ticket.pdf"])), w')
    /\ files w' !! ("", ["out"; "Trip.textbundle"; "assets"]) = Some Dir
    /\ files w' !! ("", ["out"; "Trip.textbundle"; "text.txt"]) = None.
Proof.
  destruct (write_textbundle_partial "Trip" ["# Trip"] example_meta
              ("", ["Takeout"; "Keep"; "ticket.pdf"]) [] out_dir fresh_host)
    as (w' & H & _ & Hassets & _ & Htxt & _).
  - reflexivity.
  - apply export_has_no_package.
  - reflexivity.
  - intros [_ [k Hk]]. discriminate Hk.
  - exists w'. split; [exact H |]. split; [exact Hassets | exact Htxt].
Defined.

Lemma join_snoc_empty (l : list string) (tail : list string) :
  l <> [] ->
  Py.join Py.nl (l ++ "" :: tail)
  = Py.join Py.nl l +:+ Py.nl
    +:+ match tail with [] => "" | _ => Py.nl +:+ Py.join Py.nl tail end.
Proof.
  induction l as [|x l IH]; [done |]. intros _.
  destruct l as [|y l].
  - simpl. destruct tail; [by rewrite append_nil_r | reflexivity].
  - change (Py.join Py.nl ((x :: y :: l) ++ "" :: tail))
      with (x +:+ Py.nl +:+ Py.join Py.nl ((y :: l) ++ "" :: tail)).
    rewrite IH by done.
    change (Py.join Py.nl (x :: y :: l)) with (x +:+ Py.nl +:+ Py.join Py.nl (y :: l)).
    by rewrite !append_assoc.
Qed.

(** X11. The block of the annotations is always there: for a note without
    annotations the written body is the heading line, if the note has a
    title, then the content and a line feed, and, when a colour tag follows,
    an empty line before the tag. *)
Theorem body_without_annotations (note : Note) (ignore_colors : bool)
    (content : string) :
  body_of note content ->
  default [] (annotations note) = [] ->
  exists derived text,
    convert_note_text note ignore_colors = Ok (derived, text)
    /\ Py.join Py.nl text
       = (if Py.truthy (title note) then "# " +:+ title note +:+ Py.nl else "")
         +:+ content +:+ Py.nl
         +:+ (if negb (String.eqb (color note) "DEFAULT") && negb ignore_colors
              then Py.nl +:+ "#" +:+ color note else "").
Proof.
  intros Hbody Hanns.
  assert (Hconv : convert_note_annotations note = Ok "").
  { unfold convert_note_annotations.
    destruct (annotations note) as [l|]; [| reflexivity].
    simpl in Hanns. by rewrite Hanns. }
  rewrite (convert_note_text_eq _ _ _ _ Hbody Hconv). unfold color_tag.
  destruct (Py.truthy (title note)); eexists _, _; (split; [reflexivity |]).
  - change (["# " +:+ title note; content; ""] ++ ?t)
      with (["# " +:+ title note; content] ++ "" :: t).
    rewrite join_snoc_empty by done.
    destruct (negb (String.eqb (color note) "DEFAULT") && negb ignore_colors);
      simpl; by rewrite ?append_assoc.
  - change ([content; ""] ++ ?t) with ([content] ++ "" :: t).
    rewrite join_snoc_empty by done.
    destruct (negb (String.eqb (color note) "DEFAULT") && negb ignore_colors);
      simpl; by rewrite ?append_assoc.
Qed.

Lemma body_without_annotations_witness :
  exists derived text,
    convert_note_text groceries_note false = Ok (derived, text)
    /\ Py.join Py.nl text
       = "# Groceries" +:+ Py.nl +:+ "- milk" +:+ Py.nl +:+ "+ eggs" +:+ Py.nl.
Proof.
  apply (body_without_annotations groceries_note false
           ("- milk" +:+ Py.nl +:+ "+ eggs")).
  - right. split; [reflexivity |]. eexists. split; reflexivity.
  - reflexivity.
Defined.

(** X12. The derived title of an untitled checklist is the rendered line of
    its first item, marker included. *)
Theorem untitled_checklist_title (note : Note) (ignore_colors : bool)
    (item : ListItem) (rest : list ListItem) (anns : string) :
  title note = "" ->
  textContent note = None ->
  listContent note = Some (item :: rest) ->
  Py.no_newline (text item) ->
  convert_note_annotations note = Ok anns ->
  exists blocks,
    convert_note_text note ignore_colors
    = Ok ((if isChecked item then "+ " else "- ") +:+ text item, blocks).
Proof.
  intros Ht Htext Hlist Hnl Hanns.
  rewrite (convert_note_text_eq note ignore_colors (convert_list (item :: rest)) anns);
    [| right; split; [done | by eexists] | done].
  rewrite Ht. simpl Py.truthy. cbv iota. eexists. f_equal. f_equal.
  rewrite convert_list_join.
  assert (Hitem : Py.no_newline (render_item item)).
  { unfold Py.no_newline, render_item in *. rewrite char_in_append, Hnl.
    by destruct (isChecked item). }
  unfold Py.split_nl, Py.first. destruct rest as [|item' rest].
  - simpl. by rewrite split_none.
  - change (Py.join Py.nl (map render_item (item :: item' :: rest)))
      with (render_item item +:+ String Py.LF (Py.join Py.nl (map render_item (item' :: rest)))).
    by rewrite split_cons.
Qed.

Lemma untitled_checklist_title_witness :
  exists blocks, convert_note_text todo_note false = Ok ("+ call home", blocks).
Proof.
  apply (untitled_checklist_title todo_note false
           {| text := "call home"; isChecked := true |}
           [ {| text := "water plants"; isChecked := false |} ] "");
    reflexivity.
Defined.
